(** * claude-telegram-bot: the task execution supervisor of [src/bot.ts]

    A shallow embedding of the supervisor in [bot.ts]: the module-level
    variables ([state], [currentProcess], [outputBuffer], the two timer
    handles, [lastRequestTime]) become one record [World], together with the
    part of the host the code talks to (the state file, the timers the
    runtime holds, the child processes, the messages sent).  Every function
    of [bot.ts] that touches them becomes a function [World -> World] with
    the same name; the Telegram handlers become [cmd_*] functions and the
    Node callbacks become [on_*] functions.

    What the model assumes:
    - a handler runs as one step of the event loop: the [await]s inside a
      handler (all of them wait for Telegram) are not points where another
      event is taken, and updates are handled one after the other;
    - replies and callback answers are delivered; only the calls of
      [sendOrEditStatusMessage] can fail, as their [try]/[catch] expects;
    - writing the state file succeeds (the source logs a failure and goes
      on);
    - JavaScript numbers are integers of [Z], strings are byte strings;
    - the texts sent to the operator are kept as the values they are built
      from ([Message], [StatusText]), not rendered. *)

From Stdlib Require Import ZArith List String Ascii Bool Lia.
Import ListNotations.
Open Scope string_scope.
Open Scope Z_scope.

Set Implicit Arguments.

(* ------------------------------------------------------------------------ *)
(** ** The JavaScript primitives the code relies on *)

Module JS.

(** [arr.slice(start)]: a negative [start] counts from the end, and the
    start index is clamped to the array. *)
Definition slice_start (start len : Z) : Z :=
  if start <? 0 then Z.max (len + start) 0 else Z.min start len.

Definition slice (A : Type) (start : Z) (l : list A) : list A :=
  skipn (Z.to_nat (slice_start start (Z.of_nat (List.length l)))) l.

(** [str.slice(start)] and [str.slice(0, stop)] for [stop >= 0]. *)
Definition str_slice (start : Z) (s : string) : string :=
  let len := String.length s in
  let k := Z.to_nat (slice_start start (Z.of_nat len)) in
  String.substring k (len - k) s.

Definition str_prefix (stop : nat) (s : string) : string :=
  String.substring 0 stop s.

(** [str.split(sep)] for a one-character separator: the empty string
    splits into one empty piece. *)
Fixpoint split (sep : ascii) (s : string) : list string :=
  match s with
  | EmptyString => [EmptyString]
  | String c rest =>
      if Ascii.eqb c sep then EmptyString :: split sep rest
      else match split sep rest with
           | [] => [String c EmptyString]
           | piece :: pieces => String c piece :: pieces
           end
  end.

(** [arr.join(sep)]. *)
Definition join (sep : string) (l : list string) : string :=
  String.concat sep l.

(** A string is truthy when it is not empty. *)
Definition truthy (s : string) : bool :=
  match s with EmptyString => false | String _ _ => true end.

Definition newline : ascii := Ascii.ascii_of_nat 10.
Definition nl : string := String newline EmptyString.

(** The ASCII part of the white space [trim] removes. *)
Definition is_space (c : ascii) : bool :=
  let n := Ascii.nat_of_ascii c in
  (Nat.eqb n 32 || Nat.eqb n 9 || Nat.eqb n 10 || Nat.eqb n 11
   || Nat.eqb n 12 || Nat.eqb n 13)%bool.

Fixpoint trim_start (s : string) : string :=
  match s with
  | EmptyString => EmptyString
  | String c rest => if is_space c then trim_start rest else s
  end.

Fixpoint trim_end (s : string) : string :=
  match s with
  | EmptyString => EmptyString
  | String c rest =>
      match trim_end rest with
      | EmptyString => if is_space c then EmptyString else String c EmptyString
      | rest' => String c rest'
      end
  end.

Definition trim (s : string) : string := trim_end (trim_start s).

(** [prompt.replace(/'/g, "'\\''")]: every single quote becomes the four
    characters quote, backslash, quote, quote. *)
Definition quote : ascii := Ascii.ascii_of_nat 39.
Definition backslash : ascii := Ascii.ascii_of_nat 92.

Fixpoint escape_quotes (s : string) : string :=
  match s with
  | EmptyString => EmptyString
  | String c rest =>
      if Ascii.eqb c quote
      then String quote (String backslash (String quote (String quote (escape_quotes rest))))
      else String c (escape_quotes rest)
  end.

End JS.

(* ------------------------------------------------------------------------ *)
(** ** Configuration ([CONFIG]) *)

Record Config := {
  ALLOWED_USER_ID : Z;
  WORKDIR : string;
  UNLOCK_TTL_MIN : Z;
  QUANTUM_MIN : Z;
  LOG_DIR : string;
  HEARTBEAT_SEC : Z;
  TAIL_LINES : Z
}.

(** [RATE_LIMIT_MS] is a literal of [CONFIG], not read from the environment. *)
Definition RATE_LIMIT_MS : Z := 3000.

(** The defaults of [CONFIG] (the user id and the directories are the
    deployment's). *)
Definition default_config : Config := {|
  ALLOWED_USER_ID := 1;
  WORKDIR := "/home/pi/claude-bot";
  UNLOCK_TTL_MIN := 10;
  QUANTUM_MIN := 10;
  LOG_DIR := "/home/pi/claude-bot/logs";
  HEARTBEAT_SEC := 25;
  TAIL_LINES := 20
|}.

(* ------------------------------------------------------------------------ *)
(** ** Types ([TaskStatus], [TaskState], [AppState]) *)

Inductive TaskStatus := running | paused | completed | stopped | error.

Definition TaskStatus_eqb (a b : TaskStatus) : bool :=
  match a, b with
  | running, running | paused, paused | completed, completed
  | stopped, stopped | error, error => true
  | _, _ => false
  end.

Record TaskState := {
  id : string;
  taskText : string;
  status : TaskStatus;
  startedAt : Z;
  quantumStartedAt : Z;
  chatId : Z;
  statusMsgId : option Z;
  logFilePath : string;
  lastTail : list string;
  continuationCount : Z
}.

Record AppState := {
  unlockedUntil : Z;
  currentTask : option TaskState
}.

(** Field assignments on the task object. *)
Definition set_status (s : TaskStatus) (t : TaskState) : TaskState :=
  {| id := id t; taskText := taskText t; status := s; startedAt := startedAt t;
     quantumStartedAt := quantumStartedAt t; chatId := chatId t;
     statusMsgId := statusMsgId t; logFilePath := logFilePath t;
     lastTail := lastTail t; continuationCount := continuationCount t |}.

Definition set_quantumStartedAt (q : Z) (t : TaskState) : TaskState :=
  {| id := id t; taskText := taskText t; status := status t; startedAt := startedAt t;
     quantumStartedAt := q; chatId := chatId t;
     statusMsgId := statusMsgId t; logFilePath := logFilePath t;
     lastTail := lastTail t; continuationCount := continuationCount t |}.

Definition set_statusMsgId (m : Z) (t : TaskState) : TaskState :=
  {| id := id t; taskText := taskText t; status := status t; startedAt := startedAt t;
     quantumStartedAt := quantumStartedAt t; chatId := chatId t;
     statusMsgId := Some m; logFilePath := logFilePath t;
     lastTail := lastTail t; continuationCount := continuationCount t |}.

Definition set_lastTail (l : list string) (t : TaskState) : TaskState :=
  {| id := id t; taskText := taskText t; status := status t; startedAt := startedAt t;
     quantumStartedAt := quantumStartedAt t; chatId := chatId t;
     statusMsgId := statusMsgId t; logFilePath := logFilePath t;
     lastTail := l; continuationCount := continuationCount t |}.

Definition set_continuationCount (c : Z) (t : TaskState) : TaskState :=
  {| id := id t; taskText := taskText t; status := status t; startedAt := startedAt t;
     quantumStartedAt := quantumStartedAt t; chatId := chatId t;
     statusMsgId := statusMsgId t; logFilePath := logFilePath t;
     lastTail := lastTail t; continuationCount := c |}.

(* ------------------------------------------------------------------------ *)
(** ** What the supervisor sends and what the host holds *)

Definition Pid := nat.
Definition TimerId := nat.

(** The three timers of [bot.ts]: the [setInterval] heartbeat and the
    [setTimeout] quantum timer of [startTimers], and the [setTimeout] of
    [main] that announces an interrupted task after a restart. *)
Inductive TimerKind := Heartbeat | Quantum | Notify.

Inductive Signal := SIGTERM | SIGKILL.

Inductive Keyboard :=
| NoKeyboard
| ControlPanelKeyboard
| PausedKeyboard (taskId : string).

(** The values [buildStatusText] renders into the status panel. *)
Record StatusText := {
  panel_state : TaskStatus;
  panel_id : string;
  panel_continuation : Z;
  panel_started : Z;
  panel_elapsed : Z * Z;
  panel_quantum : Z * Z;
  panel_remaining : Z * Z;
  panel_task : string;
  panel_log : string;
  panel_tail : string
}.

(** The line a handler appends below the status panel. *)
Inductive Note :=
| NoNote
| NoteFinished (s : TaskStatus) (code : option Z)
| NoteQuantumTimeout
| NoteStoppedByUser
| NotePausedByUser
| NoteRestarted.

(** The texts of [bot.ts], one constructor per message. *)
Inductive Message :=
| MWelcome (unlocked : bool) (task : option TaskStatus)
| MUsageUnlock
| MNoPassword
| MUnlocked (minutes : Z)
| MInvalidPassword
| MBotLocked
| MLockedUseUnlock
| MRateLimited
| MTaskAlready (s : TaskStatus)
| MUsageRun
| MStarting (preview : string)
| MNoActiveTask
| MStatus (text : StatusText) (note : Note)
| MNoPausedTask
| MContinuing (n : Z)
| MNoTaskToStop
| MTaskStopped
| MNoTaskToCancel
| MCancelled
| MNoRunningTask
| MExecutionError (msg : string)
| CbNoActiveTask
| CbStatusUpdated
| CbBotLocked
| CbNoTaskToStop
| CbStopping
| CbNoRunningTask
| CbPausing
| CbBotIsLocked
| CbNotFoundOrNotPaused
| CbContinuing
| CbTaskNotFound
| CbEmpty.

Inductive Effect :=
| Reply (m : Message) (kb : Keyboard)
| AnswerCbQuery (m : Message)
| DeleteMessage
| EditMessageText (chat msg : Z) (m : Message) (kb : Keyboard)
| SendMessage (chat : Z) (m : Message) (kb : Keyboard)
| Spawn (pid : Pid) (command cwd : string)
| Kill (pid : Pid) (sig : Signal)
| AppendLog (path line : string)
| MkLogDir (path : string).

(** What [JSON.parse] gives back, seen as [Partial<AppState>]: each field
    present or absent, [currentTask] possibly [null]. *)
Record PartialAppState := {
  p_unlockedUntil : option Z;
  p_currentTask : option (option TaskState)
}.

(** The state file: absent, unreadable (the read or the parse throws), or a
    JSON document. *)
Inductive FileContent :=
| NoFile
| Unreadable
| Json (loaded : PartialAppState).

(** What a Telegram call made by [sendOrEditStatusMessage] comes back with. *)
Inductive TgResult :=
| TgOk (message_id : Z)
| TgNotModified
| TgError.

(** The module-level variables of [bot.ts] (the first six fields) and the
    host: the state and secret files, the timers the runtime holds with the
    next handle it will give out, the child processes that have not closed
    yet, and the effects so far, newest first. *)
Record World := {
  state : AppState;
  currentProcess : option Pid;
  outputBuffer : list string;
  heartbeatInterval : option TimerId;
  quantumTimer : option TimerId;
  lastRequestTime : Z;
  stateFile : FileContent;
  secretFile : option string;
  timers : list (TimerId * TimerKind);
  nextTimer : TimerId;
  children : list Pid;
  nextPid : Pid;
  trace : list Effect
}.

Definition set_state (v : AppState) (w : World) : World :=
  {| state := v; currentProcess := currentProcess w; outputBuffer := outputBuffer w;
     heartbeatInterval := heartbeatInterval w; quantumTimer := quantumTimer w;
     lastRequestTime := lastRequestTime w; stateFile := stateFile w;
     secretFile := secretFile w; timers := timers w; nextTimer := nextTimer w;
     children := children w; nextPid := nextPid w; trace := trace w |}.

Definition set_currentProcess (v : option Pid) (w : World) : World :=
  {| state := state w; currentProcess := v; outputBuffer := outputBuffer w;
     heartbeatInterval := heartbeatInterval w; quantumTimer := quantumTimer w;
     lastRequestTime := lastRequestTime w; stateFile := stateFile w;
     secretFile := secretFile w; timers := timers w; nextTimer := nextTimer w;
     children := children w; nextPid := nextPid w; trace := trace w |}.

Definition set_outputBuffer (v : list string) (w : World) : World :=
  {| state := state w; currentProcess := currentProcess w; outputBuffer := v;
     heartbeatInterval := heartbeatInterval w; quantumTimer := quantumTimer w;
     lastRequestTime := lastRequestTime w; stateFile := stateFile w;
     secretFile := secretFile w; timers := timers w; nextTimer := nextTimer w;
     children := children w; nextPid := nextPid w; trace := trace w |}.

Definition set_heartbeatInterval (v : option TimerId) (w : World) : World :=
  {| state := state w; currentProcess := currentProcess w;
     outputBuffer := outputBuffer w; heartbeatInterval := v;
     quantumTimer := quantumTimer w; lastRequestTime := lastRequestTime w;
     stateFile := stateFile w; secretFile := secretFile w; timers := timers w;
     nextTimer := nextTimer w; children := children w; nextPid := nextPid w;
     trace := trace w |}.

Definition set_quantumTimer (v : option TimerId) (w : World) : World :=
  {| state := state w; currentProcess := currentProcess w;
     outputBuffer := outputBuffer w; heartbeatInterval := heartbeatInterval w;
     quantumTimer := v; lastRequestTime := lastRequestTime w; stateFile := stateFile w;
     secretFile := secretFile w; timers := timers w; nextTimer := nextTimer w;
     children := children w; nextPid := nextPid w; trace := trace w |}.

Definition set_lastRequestTime (v : Z) (w : World) : World :=
  {| state := state w; currentProcess := currentProcess w;
     outputBuffer := outputBuffer w; heartbeatInterval := heartbeatInterval w;
     quantumTimer := quantumTimer w; lastRequestTime := v; stateFile := stateFile w;
     secretFile := secretFile w; timers := timers w; nextTimer := nextTimer w;
     children := children w; nextPid := nextPid w; trace := trace w |}.

Definition set_stateFile (v : FileContent) (w : World) : World :=
  {| state := state w; currentProcess := currentProcess w;
     outputBuffer := outputBuffer w; heartbeatInterval := heartbeatInterval w;
     quantumTimer := quantumTimer w; lastRequestTime := lastRequestTime w;
     stateFile := v; secretFile := secretFile w; timers := timers w;
     nextTimer := nextTimer w; children := children w; nextPid := nextPid w;
     trace := trace w |}.

Definition set_secretFile (v : option string) (w : World) : World :=
  {| state := state w; currentProcess := currentProcess w;
     outputBuffer := outputBuffer w; heartbeatInterval := heartbeatInterval w;
     quantumTimer := quantumTimer w; lastRequestTime := lastRequestTime w;
     stateFile := stateFile w; secretFile := v; timers := timers w;
     nextTimer := nextTimer w; children := children w; nextPid := nextPid w;
     trace := trace w |}.

Definition set_timers (v : list (TimerId * TimerKind)) (w : World) : World :=
  {| state := state w; currentProcess := currentProcess w;
     outputBuffer := outputBuffer w; heartbeatInterval := heartbeatInterval w;
     quantumTimer := quantumTimer w; lastRequestTime := lastRequestTime w;
     stateFile := stateFile w; secretFile := secretFile w; timers := v;
     nextTimer := nextTimer w; children := children w; nextPid := nextPid w;
     trace := trace w |}.

Definition set_nextTimer (v : TimerId) (w : World) : World :=
  {| state := state w; currentProcess := currentProcess w;
     outputBuffer := outputBuffer w; heartbeatInterval := heartbeatInterval w;
     quantumTimer := quantumTimer w; lastRequestTime := lastRequestTime w;
     stateFile := stateFile w; secretFile := secretFile w; timers := timers w;
     nextTimer := v; children := children w; nextPid := nextPid w; trace := trace w |}.

Definition set_children (v : list Pid) (w : World) : World :=
  {| state := state w; currentProcess := currentProcess w;
     outputBuffer := outputBuffer w; heartbeatInterval := heartbeatInterval w;
     quantumTimer := quantumTimer w; lastRequestTime := lastRequestTime w;
     stateFile := stateFile w; secretFile := secretFile w; timers := timers w;
     nextTimer := nextTimer w; children := v; nextPid := nextPid w; trace := trace w |}.

Definition set_nextPid (v : Pid) (w : World) : World :=
  {| state := state w; currentProcess := currentProcess w;
     outputBuffer := outputBuffer w; heartbeatInterval := heartbeatInterval w;
     quantumTimer := quantumTimer w; lastRequestTime := lastRequestTime w;
     stateFile := stateFile w; secretFile := secretFile w; timers := timers w;
     nextTimer := nextTimer w; children := children w; nextPid := v;
     trace := trace w |}.

Definition set_trace (v : list Effect) (w : World) : World :=
  {| state := state w; currentProcess := currentProcess w;
     outputBuffer := outputBuffer w; heartbeatInterval := heartbeatInterval w;
     quantumTimer := quantumTimer w; lastRequestTime := lastRequestTime w;
     stateFile := stateFile w; secretFile := secretFile w; timers := timers w;
     nextTimer := nextTimer w; children := children w; nextPid := nextPid w;
     trace := v |}.

(** What the host hands to one handler run: the readings of [Date.now()] in
    the order the handler takes them, the identifier [randomUUID()] returns,
    and the results of the first Telegram call of
    [sendOrEditStatusMessage] and of its fallback. *)
Record Env := {
  clock : nat -> Z;
  uuid : string;
  tg1 : TgResult;
  tg2 : TgResult
}.

Definition emit (e : Effect) (w : World) : World := set_trace (e :: trace w) w.

(** [state.currentTask = t]; an assignment to a field of the task object
    stores the updated task. *)
Definition set_currentTask (t : option TaskState) (w : World) : World :=
  set_state {| unlockedUntil := unlockedUntil (state w); currentTask := t |} w.

Definition set_unlockedUntil (u : Z) (w : World) : World :=
  set_state {| unlockedUntil := u; currentTask := currentTask (state w) |} w.

Definition task_status (w : World) : option TaskStatus :=
  option_map status (currentTask (state w)).

Definition is_status (s : TaskStatus) (w : World) : bool :=
  match currentTask (state w) with
  | Some t => TaskStatus_eqb (status t) s
  | None => false
  end.

(* ------------------------------------------------------------------------ *)
(** ** State persistence *)

(** [fs.writeFileSync(STATE_FILE, JSON.stringify(state))]; a failing write is
    caught and logged by the source and is not modelled. *)
Definition saveState (w : World) : World :=
  set_stateFile (Json {| p_unlockedUntil := Some (unlockedUntil (state w));
                         p_currentTask := Some (currentTask (state w)) |}) w.

(** [{ ...state, ...loaded }] *)
Definition spread (st : AppState) (loaded : PartialAppState) : AppState :=
  {| unlockedUntil := match p_unlockedUntil loaded with
                      | Some u => u
                      | None => unlockedUntil st
                      end;
     currentTask := match p_currentTask loaded with
                    | Some t => t
                    | None => currentTask st
                    end |}.

Definition loadState (w : World) : World :=
  match stateFile w with
  | NoFile => w
  | Unreadable => w
  | Json loaded =>
      let w1 := set_state (spread (state w) loaded) w in
      match currentTask (state w1) with
      | Some t =>
          if TaskStatus_eqb (status t) running
          then saveState (set_currentTask (Some (set_status paused t)) w1)
          else w1
      | None => w1
      end
  end.

(* ------------------------------------------------------------------------ *)
(** ** Security helpers *)

Definition isAllowedUser (allowed : Z) (from : option Z) (private : bool) : bool :=
  match from with
  | Some user => (user =? allowed) && private
  | None => false
  end.

Definition isUnlocked (now : Z) (w : World) : bool :=
  now <? unlockedUntil (state w).

Definition getStoredPassword (w : World) : option string :=
  option_map JS.trim (secretFile w).

Definition rateLimitCheck (now : Z) (w : World) : bool * World :=
  if now - lastRequestTime w <? RATE_LIMIT_MS
  then (false, w)
  else (true, set_lastRequestTime now w).

(* ------------------------------------------------------------------------ *)
(** ** Timers *)

Definition clearTimer (t : TimerId) (k : TimerKind) (w : World) : World :=
  set_timers (filter (fun p => negb (Nat.eqb (fst p) t)) (timers w)) w.

Definition stopTimers (w : World) : World :=
  let w1 := match heartbeatInterval w with
            | Some h => set_heartbeatInterval None (clearTimer h Heartbeat w)
            | None => w
            end in
  match quantumTimer w1 with
  | Some q => set_quantumTimer None (clearTimer q Quantum w1)
  | None => w1
  end.

(** [setInterval] / [setTimeout]: the runtime gives out a fresh handle. *)
Definition setTimer (k : TimerKind) (w : World) : TimerId * World :=
  (nextTimer w,
   set_nextTimer (S (nextTimer w)) (set_timers ((nextTimer w, k) :: timers w) w)).

Definition startTimers (w : World) : World :=
  let (h, w1) := setTimer Heartbeat w in
  let w2 := set_heartbeatInterval (Some h) w1 in
  let (q, w3) := setTimer Quantum w2 in
  set_quantumTimer (Some q) w3.

Section Supervisor.

Variable CONFIG : Config.

(* ------------------------------------------------------------------------ *)
(** ** Telegram UI helpers *)

(** [formatDuration]: the minutes and the seconds it prints. *)
Definition formatDuration (ms : Z) : Z * Z :=
  let seconds := ms / 1000 in
  let minutes := seconds / 60 in
  (minutes, Z.rem seconds 60).

(** [outputBuffer.slice(-CONFIG.TAIL_LINES)] *)
Definition tail (w : World) : list string :=
  JS.slice (- TAIL_LINES CONFIG) (outputBuffer w).

Definition buildStatusText (now : Z) (task : TaskState) (w : World) : StatusText :=
  let totalElapsed := now - startedAt task in
  let quantumElapsed := now - quantumStartedAt task in
  let quantumRemaining := Z.max 0 (QUANTUM_MIN CONFIG * 60 * 1000 - quantumElapsed) in
  let joined := JS.join JS.nl (tail w) in
  let shown := if JS.truthy joined then joined else "(no output yet)" in
  let truncatedTail :=
    if (2000 <? String.length shown)%nat
    then "..." ++ JS.str_slice (-2000) shown
    else shown in
  {| panel_state := status task;
     panel_id := JS.str_prefix 8 (id task);
     panel_continuation := continuationCount task;
     panel_started := startedAt task;
     panel_elapsed := formatDuration totalElapsed;
     panel_quantum := formatDuration quantumElapsed;
     panel_remaining := formatDuration quantumRemaining;
     panel_task := JS.str_prefix 100 (taskText task)
                   ++ (if (100 <? String.length (taskText task))%nat then "..." else "");
     panel_log := logFilePath task;
     panel_tail := truncatedTail |}.

(** [if (task.statusMsgId)]: defined and not zero. *)
Definition editable (task : TaskState) : option Z :=
  match statusMsgId task with
  | Some m => if m =? 0 then None else Some m
  | None => None
  end.

Definition sendOrEditStatusMessage (r1 r2 : TgResult) (text : Message)
    (kb : Keyboard) (w : World) : World :=
  match currentTask (state w) with
  | None => w
  | Some task =>
      let w1 := emit (match editable task with
                      | Some m => EditMessageText (chatId task) m text kb
                      | None => SendMessage (chatId task) text kb
                      end) w in
      match r1 with
      | TgOk mid =>
          match editable task with
          | Some _ => w1
          | None => saveState (set_currentTask (Some (set_statusMsgId mid task)) w1)
          end
      | TgNotModified => w1
      | TgError =>
          let w2 := emit (SendMessage (chatId task) text kb) w1 in
          match r2 with
          | TgOk mid => saveState (set_currentTask (Some (set_statusMsgId mid task)) w2)
          | _ => w2
          end
      end
  end.

(* ------------------------------------------------------------------------ *)
(** ** Execution engine *)

Definition appendToLog (line : string) (w : World) : World :=
  match currentTask (state w) with
  | Some task => emit (AppendLog (logFilePath task) line) w
  | None => w
  end.

Definition buildContinuationPrompt (task : TaskState) : string :=
  let last := JS.join JS.nl (JS.slice (-20) (lastTail task)) in
  JS.join JS.nl
    [ "CONTINUATION PROMPT - Task was paused due to time limit.";
      "";
      "Original task: " ++ taskText task;
      "";
      "Working directory: " ++ WORKDIR CONFIG;
      "";
      "Last output before pause:";
      "```";
      last;
      "```";
      "";
      "Please continue the task from where it left off. Maintain consistency with previous work." ].

(** The command line handed to [bash -c]. *)
Definition fullCommand (prompt : string) : string :=
  "claude -p '" ++ JS.escape_quotes prompt ++ "'" ++ " 2>&1".

Definition spawn (command : string) (w : World) : World :=
  emit (Spawn (nextPid w) command (WORKDIR CONFIG))
    (set_currentProcess (Some (nextPid w))
       (set_nextPid (S (nextPid w)) (set_children (nextPid w :: children w) w))).

(** The data handler of [currentProcess.stdout]. *)
Definition push (line : string) (w : World) : World :=
  set_outputBuffer (outputBuffer w ++ [line]) w.

Definition on_stdout (data : string) (w : World) : World :=
  let lines := JS.split JS.newline data in
  let w1 := fold_left (fun acc line =>
                         if JS.truthy line then appendToLog line (push line acc) else acc)
                      lines w in
  if 1000 <? Z.of_nat (List.length (outputBuffer w1))
  then set_outputBuffer (JS.slice (-500) (outputBuffer w1)) w1
  else w1.

(** The data handler of [currentProcess.stderr]. *)
Definition on_stderr (data : string) (w : World) : World :=
  let lines := JS.split JS.newline data in
  fold_left (fun acc line =>
               if JS.truthy line
               then appendToLog ("[ERR] " ++ line) (push ("[ERR] " ++ line) acc)
               else acc)
            lines w.

(** The two ['error'] handlers of the child, in the order they are
    registered. *)
Definition on_error (r1 r2 : TgResult) (msg : string) (w : World) : World :=
  let w1 := push ("[SPAWN ERROR] " ++ msg) w in
  let w2 := stopTimers (set_currentProcess None w1) in
  match currentTask (state w2) with
  | Some t =>
      let w3 := saveState (set_currentTask (Some (set_status error t)) w2) in
      sendOrEditStatusMessage r1 r2 (MExecutionError msg) NoKeyboard w3
  | None => w2
  end.

(** The ['close'] handler of the child; [code] is [None] when the exit code
    is [null] (the child was ended by a signal). *)
Definition exit_status (code : option Z) : TaskStatus :=
  match code with
  | Some 0 => completed
  | _ => error
  end.

Definition on_close (now : Z) (r1 r2 : TgResult) (code : option Z) (w : World) : World :=
  let w1 := stopTimers (set_currentProcess None w) in
  match currentTask (state w1) with
  | Some t =>
      if TaskStatus_eqb (status t) running
      then
        let task := set_lastTail (tail w1) (set_status (exit_status code) t) in
        let w2 := saveState (set_currentTask (Some task) w1) in
        sendOrEditStatusMessage r1 r2
          (MStatus (buildStatusText now task w2) (NoteFinished (status task) code))
          NoKeyboard w2
      else w1
  | None => w1
  end.

(** [startExecution]: [now_q] is the reading stored in [quantumStartedAt],
    [now_s] the one [buildStatusText] takes.  Every caller has a current
    task (the source asserts it with [state.currentTask!]). *)
Definition startExecution (now_q now_s : Z) (r1 r2 : TgResult) (text : string)
    (isResume : bool) (w : World) : World :=
  match currentTask (state w) with
  | None => w
  | Some t =>
      let task := set_quantumStartedAt now_q (set_status running t) in
      let w1 := saveState (set_currentTask (Some task) w) in
      let w2 := set_outputBuffer [] w1 in
      let prompt := if isResume then buildContinuationPrompt task else text in
      let w3 := spawn (fullCommand prompt) w2 in
      let w4 := startTimers w3 in
      sendOrEditStatusMessage r1 r2
        (MStatus (buildStatusText now_s task w4) NoNote) ControlPanelKeyboard w4
  end.

(** [currentProcess.kill(sig); currentProcess = null] *)
Definition killProcess (sig : Signal) (w : World) : World :=
  match currentProcess w with
  | Some p => set_currentProcess None (emit (Kill p sig) w)
  | None => w
  end.

Definition pauseForQuantumTimeout (now : Z) (r1 r2 : TgResult) (w : World) : World :=
  let w1 := killProcess SIGTERM (stopTimers w) in
  match currentTask (state w1) with
  | Some t =>
      let task := set_lastTail (tail w1) (set_status paused t) in
      let w2 := saveState (set_currentTask (Some task) w1) in
      sendOrEditStatusMessage r1 r2
        (MStatus (buildStatusText now task w2) NoteQuantumTimeout)
        (PausedKeyboard (id task)) w2
  | None => w1
  end.

Definition stopCurrentTask (now : Z) (r1 r2 : TgResult) (w : World) : World :=
  let w1 := killProcess SIGTERM (stopTimers w) in
  match currentTask (state w1) with
  | Some t =>
      let task := set_lastTail (tail w1) (set_status stopped t) in
      let w2 := saveState (set_currentTask (Some task) w1) in
      let w3 := sendOrEditStatusMessage r1 r2
                  (MStatus (buildStatusText now task w2) NoteStoppedByUser)
                  NoKeyboard w2 in
      saveState (set_currentTask None w3)
  | None => w1
  end.

Definition pauseCurrentTask (now : Z) (r1 r2 : TgResult) (w : World) : World :=
  let w1 := killProcess SIGTERM (stopTimers w) in
  match currentTask (state w1) with
  | Some t =>
      let task := set_lastTail (tail w1) (set_status paused t) in
      let w2 := saveState (set_currentTask (Some task) w1) in
      sendOrEditStatusMessage r1 r2
        (MStatus (buildStatusText now task w2) NotePausedByUser)
        (PausedKeyboard (id task)) w2
  | None => w1
  end.

(* ------------------------------------------------------------------------ *)
(** ** Bot commands *)

(** [ctx.message.text.split(' ').slice(1).join(' ').trim()] *)
Definition command_args (text : string) : string :=
  JS.trim (JS.join " " (JS.slice 1 (JS.split " "%char text))).

(** [/start] *)
Definition cmd_start (env : Env) (w : World) : World :=
  emit (Reply (MWelcome (isUnlocked (clock env 0%nat) w) (task_status w))
              ControlPanelKeyboard) w.

(** [/unlock] *)
Definition cmd_unlock (env : Env) (text : string) (w : World) : World :=
  let args := command_args text in
  if negb (JS.truthy args) then emit (Reply MUsageUnlock NoKeyboard) w
  else
    match getStoredPassword w with
    | None => emit (Reply MNoPassword NoKeyboard) w
    | Some storedPassword =>
        if negb (JS.truthy storedPassword) then emit (Reply MNoPassword NoKeyboard) w
        else if String.eqb args storedPassword
        then
          let w1 := saveState
                      (set_unlockedUntil
                         (clock env 0%nat + UNLOCK_TTL_MIN CONFIG * 60 * 1000) w) in
          emit DeleteMessage
            (emit (Reply (MUnlocked (UNLOCK_TTL_MIN CONFIG)) NoKeyboard) w1)
        else emit (Reply MInvalidPassword NoKeyboard) w
    end.

(** [/lock] *)
Definition cmd_lock (w : World) : World :=
  emit (Reply MBotLocked NoKeyboard) (saveState (set_unlockedUntil 0 w)).

(** The task a new [/run] must not replace:
    [state.currentTask && (status === 'running' || status === 'paused')]. *)
Definition active_status (w : World) : option TaskStatus :=
  match currentTask (state w) with
  | Some t =>
      match status t with
      | running => Some running
      | paused => Some paused
      | _ => None
      end
  | None => None
  end.

(** [/run] *)
Definition cmd_run (env : Env) (chat : Z) (text : string) (w : World) : World :=
  if negb (isUnlocked (clock env 0%nat) w)
  then emit (Reply MLockedUseUnlock NoKeyboard) w
  else
    let (ok, w1) := rateLimitCheck (clock env 1%nat) w in
    if negb ok then emit (Reply MRateLimited NoKeyboard) w1
    else
      match active_status w1 with
      | Some s => emit (Reply (MTaskAlready s) NoKeyboard) w1
      | None =>
          let text' := command_args text in
          if negb (JS.truthy text') then emit (Reply MUsageRun NoKeyboard) w1
          else
            let taskId := uuid env in
            let path := LOG_DIR CONFIG ++ "/" ++ "task-" ++ taskId ++ ".log" in
            let w2 := emit (MkLogDir (LOG_DIR CONFIG)) w1 in
            let w3 := saveState
                        (set_currentTask
                           (Some {| id := taskId;
                                    taskText := text';
                                    status := running;
                                    startedAt := clock env 2%nat;
                                    quantumStartedAt := clock env 3%nat;
                                    chatId := chat;
                                    statusMsgId := None;
                                    logFilePath := path;
                                    lastTail := [];
                                    continuationCount := 0 |}) w2) in
            let w4 := emit (Reply (MStarting (JS.str_prefix 100 text')) NoKeyboard) w3 in
            startExecution (clock env 4%nat) (clock env 5%nat) (tg1 env) (tg2 env)
              text' false w4
      end.

(** [/status] *)
Definition cmd_status (env : Env) (w : World) : World :=
  match currentTask (state w) with
  | None => emit (Reply MNoActiveTask NoKeyboard) w
  | Some task =>
      emit (Reply (MStatus (buildStatusText (clock env 0%nat) task w) NoNote)
                  (match status task with
                   | paused => PausedKeyboard (id task)
                   | _ => ControlPanelKeyboard
                   end)) w
  end.

(** [state.currentTask.continuationCount++; saveState()] and the resumed
    burst, shared by [/continue] and the CONTINUE button. *)
Definition resume (env : Env) (announce : Effect) (t : TaskState) (w : World) : World :=
  let task := set_continuationCount (continuationCount t + 1) t in
  let w1 := saveState (set_currentTask (Some task) w) in
  startExecution (clock env 1%nat) (clock env 2%nat) (tg1 env) (tg2 env)
    (taskText task) true (emit announce w1).

(** [/continue] *)
Definition cmd_continue (env : Env) (w : World) : World :=
  if negb (isUnlocked (clock env 0%nat) w)
  then emit (Reply MLockedUseUnlock NoKeyboard) w
  else
    match currentTask (state w) with
    | Some t =>
        if negb (TaskStatus_eqb (status t) paused)
        then emit (Reply MNoPausedTask NoKeyboard) w
        else resume env (Reply (MContinuing (continuationCount t + 1)) NoKeyboard) t w
    | None => emit (Reply MNoPausedTask NoKeyboard) w
    end.

(** [/stop] *)
Definition cmd_stop (env : Env) (w : World) : World :=
  match currentTask (state w) with
  | None => emit (Reply MNoTaskToStop NoKeyboard) w
  | Some _ =>
      emit (Reply MTaskStopped NoKeyboard)
        (stopCurrentTask (clock env 0%nat) (tg1 env) (tg2 env) w)
  end.

(** [/cancel] *)
Definition cmd_cancel (w : World) : World :=
  match currentTask (state w) with
  | None => emit (Reply MNoTaskToCancel NoKeyboard) w
  | Some t =>
      let w1 := killProcess SIGKILL (stopTimers w) in
      let w2 := saveState (set_currentTask (Some (set_status stopped t)) w1) in
      let w3 := emit (Reply MCancelled NoKeyboard) w2 in
      saveState (set_currentTask None w3)
  end.

(** [/pause] *)
Definition cmd_pause (env : Env) (w : World) : World :=
  if negb (is_status running w)
  then emit (Reply MNoRunningTask NoKeyboard) w
  else pauseCurrentTask (clock env 0%nat) (tg1 env) (tg2 env) w.

(** The [callback_query] handler; [data] is [None] when the query carries
    no data. *)
Definition on_callback_query (env : Env) (from : Z) (data : option string)
    (w : World) : World :=
  match data with
  | None => w
  | Some data =>
      if negb (from =? ALLOWED_USER_ID CONFIG) then w
      else if String.eqb data "STATUS" then
        match currentTask (state w) with
        | None => emit (AnswerCbQuery CbNoActiveTask) w
        | Some task =>
            sendOrEditStatusMessage (tg1 env) (tg2 env)
              (MStatus (buildStatusText (clock env 0%nat) task w) NoNote)
              ControlPanelKeyboard
              (emit (AnswerCbQuery CbStatusUpdated) w)
        end
      else if String.eqb data "LOCK" then
        emit (Reply MBotLocked NoKeyboard)
          (emit (AnswerCbQuery CbBotLocked) (saveState (set_unlockedUntil 0 w)))
      else if String.eqb data "STOP_PANEL" then
        match currentTask (state w) with
        | None => emit (AnswerCbQuery CbNoTaskToStop) w
        | Some _ =>
            stopCurrentTask (clock env 0%nat) (tg1 env) (tg2 env)
              (emit (AnswerCbQuery CbStopping) w)
        end
      else if String.eqb data "PAUSE" then
        if negb (is_status running w) then emit (AnswerCbQuery CbNoRunningTask) w
        else pauseCurrentTask (clock env 0%nat) (tg1 env) (tg2 env)
               (emit (AnswerCbQuery CbPausing) w)
      else if String.prefix "CONTINUE:" data then
        let taskId := nth 1 (JS.split ":"%char data) "" in
        if negb (isUnlocked (clock env 0%nat) w) then emit (AnswerCbQuery CbBotIsLocked) w
        else
          match currentTask (state w) with
          | Some t =>
              if negb (String.eqb (id t) taskId) || negb (TaskStatus_eqb (status t) paused)
              then emit (AnswerCbQuery CbNotFoundOrNotPaused) w
              else resume env (AnswerCbQuery CbContinuing) t w
          | None => emit (AnswerCbQuery CbNotFoundOrNotPaused) w
          end
      else if String.prefix "STOP:" data then
        let taskId := nth 1 (JS.split ":"%char data) "" in
        match currentTask (state w) with
        | Some t =>
            if negb (String.eqb (id t) taskId) then emit (AnswerCbQuery CbTaskNotFound) w
            else stopCurrentTask (clock env 0%nat) (tg1 env) (tg2 env)
                   (emit (AnswerCbQuery CbStopping) w)
        | None => emit (AnswerCbQuery CbTaskNotFound) w
        end
      else emit (AnswerCbQuery CbEmpty) w
  end.

(* ------------------------------------------------------------------------ *)
(** ** Timer callbacks *)

(** The [setInterval] callback of [startTimers]. *)
Definition on_heartbeat (env : Env) (w : World) : World :=
  match currentTask (state w) with
  | Some task =>
      if TaskStatus_eqb (status task) running
      then sendOrEditStatusMessage (tg1 env) (tg2 env)
             (MStatus (buildStatusText (clock env 0%nat) task w) NoNote)
             ControlPanelKeyboard w
      else w
  | None => w
  end.

(** The [setTimeout] callback of [main]; without a current task
    [state.currentTask!] throws inside the [try] and nothing happens. *)
Definition on_restart_notice (env : Env) (w : World) : World :=
  match currentTask (state w) with
  | Some task =>
      let w1 := emit (SendMessage (chatId task)
                        (MStatus (buildStatusText (clock env 0%nat) task w) NoteRestarted)
                        (PausedKeyboard (id task))) w in
      match tg1 env with
      | TgOk mid => saveState (set_currentTask (Some (set_statusMsgId mid task)) w1)
      | _ => w1
      end
  | None => w
  end.

(* ------------------------------------------------------------------------ *)
(** ** Startup *)

(** The module-level initialisers, on a host with the given files. *)
Definition initial (file : FileContent) (secret : option string) : World :=
  {| state := {| unlockedUntil := 0; currentTask := None |};
     currentProcess := None;
     outputBuffer := [];
     heartbeatInterval := None;
     quantumTimer := None;
     lastRequestTime := 0;
     stateFile := file;
     secretFile := secret;
     timers := [];
     nextTimer := 0%nat;
     children := [];
     nextPid := 0%nat;
     trace := [] |}.

(** [main], up to [bot.launch()]. *)
Definition main (file : FileContent) (secret : option string) : World :=
  let w := loadState (initial file secret) in
  let w1 := match secretFile w with
            | None => set_secretFile (Some "changeme") w
            | Some _ => w
            end in
  if is_status paused w1 then snd (setTimer Notify w1) else w1.

(* ------------------------------------------------------------------------ *)
(** ** The event loop *)

Inductive Update :=
| Start
| Unlock (text : string)
| Lock
| Run (text : string)
| Status
| Continue
| Stop
| Cancel
| Pause
| CallbackQuery (data : option string).

Inductive Event :=
| Telegram (from : option Z) (private : bool) (chat : Z) (u : Update)
| Stdout (p : Pid) (data : string)
| Stderr (p : Pid) (data : string)
| ProcError (p : Pid) (msg : string)
| Close (p : Pid) (code : option Z)
| HeartbeatTick (t : TimerId)
| QuantumExpiry (t : TimerId)
| RestartNotice (t : TimerId).

Definition TimerKind_eqb (a b : TimerKind) : bool :=
  match a, b with
  | Heartbeat, Heartbeat | Quantum, Quantum | Notify, Notify => true
  | _, _ => false
  end.

Definition pending (t : TimerId) (k : TimerKind) (w : World) : bool :=
  existsb (fun p => Nat.eqb (fst p) t && TimerKind_eqb (snd p) k) (timers w).

Definition alive (p : Pid) (w : World) : bool :=
  existsb (Nat.eqb p) (children w).

(** An event can occur when its source exists: a child that has not closed,
    a timer the runtime still holds. *)
Definition enabled (ev : Event) (w : World) : bool :=
  match ev with
  | Telegram _ _ _ _ => true
  | Stdout p _ | Stderr p _ | ProcError p _ | Close p _ => alive p w
  | HeartbeatTick t => pending t Heartbeat w
  | QuantumExpiry t => pending t Quantum w
  | RestartNotice t => pending t Notify w
  end.

Definition handle (env : Env) (from chat : Z) (u : Update) (w : World) : World :=
  match u with
  | Start => cmd_start env w
  | Unlock text => cmd_unlock env text w
  | Lock => cmd_lock w
  | Run text => cmd_run env chat text w
  | Status => cmd_status env w
  | Continue => cmd_continue env w
  | Stop => cmd_stop env w
  | Cancel => cmd_cancel w
  | Pause => cmd_pause env w
  | CallbackQuery data => on_callback_query env from data w
  end.

(** One turn of the event loop.  The middleware drops every update that is
    not from the allowed user in a private chat; a timeout leaves the
    runtime when it fires, a child when it closes. *)
Definition step (ev : Event) (env : Env) (w : World) : World :=
  match ev with
  | Telegram from private chat u =>
      match from with
      | Some user =>
          if isAllowedUser (ALLOWED_USER_ID CONFIG) from private
          then handle env user chat u w
          else w
      | None => w
      end
  | Stdout _ data => on_stdout data w
  | Stderr _ data => on_stderr data w
  | ProcError _ msg => on_error (tg1 env) (tg2 env) msg w
  | Close p code =>
      on_close (clock env 0%nat) (tg1 env) (tg2 env) code
        (set_children (filter (fun c => negb (Nat.eqb c p)) (children w)) w)
  | HeartbeatTick _ => on_heartbeat env w
  | QuantumExpiry t =>
      pauseForQuantumTimeout (clock env 0%nat) (tg1 env) (tg2 env)
        (clearTimer t Quantum w)
  | RestartNotice t => on_restart_notice env (clearTimer t Notify w)
  end.

(** The worlds one run of the bot can be in. *)
Inductive Reachable : World -> Prop :=
| reach_main : forall file secret, Reachable (main file secret)
| reach_step : forall w ev env,
    Reachable w -> enabled ev w = true -> Reachable (step ev env w).

(** A run of events, each with what the host hands its handler. *)
Fixpoint run_events (evs : list (Event * Env)) (w : World) : World :=
  match evs with
  | [] => w
  | (ev, env) :: rest => run_events rest (step ev env w)
  end.

End Supervisor.

(* ------------------------------------------------------------------------ *)
(** ** Shutdown *)


(* ------------------------------------------------------------------------ *)
(** ** Device status (the telemetry module) *)

Module Device.

(** The three numbers [getDeviceStatus] prints for the uptime, for a whole
    number of seconds. *)
Definition uptimeDays (uptimeSec : Z) : Z := uptimeSec / 86400.

Definition uptimeHours (uptimeSec : Z) : Z := Z.rem uptimeSec 86400 / 3600.

Definition uptimeMins (uptimeSec : Z) : Z := Z.rem uptimeSec 3600 / 60.

End Device.

(* ------------------------------------------------------------------------ *)
(** ** How the shell reads the quoted prompt *)

Module Bash.

(** A word made of single-quoted pieces and backslash escapes, as [bash]
    reads it: inside single quotes every character stands for itself up to
    the next quote; outside, a backslash keeps the next character.  Any
    other character outside the quotes is not part of such a word. *)
Fixpoint dequote (quoted : bool) (word : string) : option string :=
  match word with
  | EmptyString => if quoted then None else Some EmptyString
  | String c rest =>
      if quoted then
        if Ascii.eqb c JS.quote then dequote false rest
        else option_map (String c) (dequote true rest)
      else
        if Ascii.eqb c JS.quote then dequote true rest
        else if Ascii.eqb c JS.backslash then
          match rest with
          | String d rest' => option_map (String d) (dequote false rest')
          | EmptyString => None
          end
        else None
  end.

End Bash.

(* ======================================================================== *)
(** * The vocabulary of the properties *)

Unset Implicit Arguments.

(* ------------------------------------------------------------------------ *)
(** ** Predicates on worlds and events *)

(** Everything of a task but the handle of its status message. *)
Definition core (t : TaskState) :=
  (id t, taskText t, status t, startedAt t, quantumStartedAt t, chatId t,
   logFilePath t, lastTail t, continuationCount t).

(** Two worlds with the same task status and the same timers. *)
Definition same_control (w w0 : World) : Prop :=
  task_status w0 = task_status w /\
  heartbeatInterval w0 = heartbeatInterval w /\
  quantumTimer w0 = quantumTimer w /\
  timers w0 = timers w /\
  nextTimer w0 = nextTimer w.

(** A handler leaves the burst alone, ends it, or begins one. *)
Inductive control_change (w w' : World) : Prop :=
| cc_kept :
    task_status w' = task_status w ->
    heartbeatInterval w' = heartbeatInterval w ->
    quantumTimer w' = quantumTimer w ->
    incl (timers w') (timers w) ->
    nextTimer w' = nextTimer w ->
    control_change w w'
| cc_stopped :
    incl (timers w') (timers (stopTimers w)) ->
    nextTimer w' = nextTimer w ->
    heartbeatInterval w' = None ->
    quantumTimer w' = None ->
    is_status running w' = false ->
    control_change w w'
| cc_started :
    is_status running w = false ->
    timers w' = (S (nextTimer w), Quantum) :: (nextTimer w, Heartbeat) :: timers w ->
    heartbeatInterval w' = Some (nextTimer w) ->
    quantumTimer w' = Some (S (nextTimer w)) ->
    nextTimer w' = S (S (nextTimer w)) ->
    is_status running w' = true ->
    control_change w w'.

(** Every pending timer was handed out by the runtime. *)
Definition fresh (w : World) : Prop :=
  forall t k, In (t, k) (timers w) -> (t < nextTimer w)%nat.




(** The count of the current task, if there is one. *)
Definition count (w : World) : option Z :=
  option_map continuationCount (currentTask (state w)).

(** A handler that leaves the count alone: the task keeps its count, or
    there is no task any more. *)
Definition count_kept (w w' : World) : Prop :=
  count w' = count w \/ currentTask (state w') = None.

(** The guards a [/run] has to pass to create a task. *)
Definition run_accepted (env : Env) (text : string) (w : World) : bool :=
  isUnlocked (clock env 0%nat) w
  && negb (clock env 1%nat - lastRequestTime w <? RATE_LIMIT_MS)
  && match active_status w with None => true | Some _ => false end
  && JS.truthy (command_args text).

(** The guards a [/continue] has to pass. *)
Definition continue_accepted (env : Env) (w : World) : bool :=
  isUnlocked (clock env 0%nat) w && is_status paused w.

(** The guards a press on a CONTINUE button has to pass. *)
Definition button_accepted (cfg : Config) (env : Env) (from : Z) (data : string)
    (w : World) : bool :=
  (from =? ALLOWED_USER_ID cfg)
  && negb (String.eqb data "STATUS") && negb (String.eqb data "LOCK")
  && negb (String.eqb data "STOP_PANEL") && negb (String.eqb data "PAUSE")
  && String.prefix "CONTINUE:" data
  && isUnlocked (clock env 0%nat) w
  && match currentTask (state w) with
     | Some t => String.eqb (id t) (nth 1 (JS.split ":"%char data) "")
                 && TaskStatus_eqb (status t) paused
     | None => false
     end.

(** The event creates a task. *)
Definition starts (cfg : Config) (ev : Event) (env : Env) (w : World) : bool :=
  match ev with
  | Telegram from private _ (Run text) =>
      isAllowedUser (ALLOWED_USER_ID cfg) from private && run_accepted env text w
  | _ => false
  end.

(** The event is a successful continue. *)
Definition resumes (cfg : Config) (ev : Event) (env : Env) (w : World) : bool :=
  match ev with
  | Telegram from private _ Continue =>
      isAllowedUser (ALLOWED_USER_ID cfg) from private && continue_accepted env w
  | Telegram (Some user) private _ (CallbackQuery (Some data)) =>
      isAllowedUser (ALLOWED_USER_ID cfg) (Some user) private
      && button_accepted cfg env user data w
  | _ => false
  end.

(** The successful continues, and whether a task is created, along a run. *)
Fixpoint resumed (cfg : Config) (evs : list (Event * Env)) (w : World) : Z :=
  match evs with
  | [] => 0
  | (ev, env) :: rest =>
      (if resumes cfg ev env w then 1 else 0) + resumed cfg rest (step cfg ev env w)
  end.

Fixpoint started (cfg : Config) (evs : list (Event * Env)) (w : World) : bool :=
  match evs with
  | [] => false
  | (ev, env) :: rest => starts cfg ev env w || started cfg rest (step cfg ev env w)
  end.

(* ------------------------------------------------------------------------ *)
(** ** Sample runs *)

(** The host of the sample runs: every clock reading of a handler is
    [now], Telegram accepts the first call. *)
Definition host (now : Z) : Env :=
  {| clock := fun _ => now;
     uuid := "3f2a9c1e-0000-4000-8000-000000000001";
     tg1 := TgOk 7;
     tg2 := TgError |}.

(** An update from the allowed user in a private chat. *)
Definition operator (u : Update) : Event :=
  Telegram (Some (ALLOWED_USER_ID default_config)) true 55 u.

(** The task of the sample runs, as [/run] creates it. *)
Definition sample_task : TaskState :=
  {| id := "3f2a9c1e-0000-4000-8000-000000000001";
     taskText := "write a file";
     status := running;
     startedAt := 101000;
     quantumStartedAt := 101000;
     chatId := 55;
     statusMsgId := Some 7;
     logFilePath :=
       "/home/pi/claude-bot/logs/task-3f2a9c1e-0000-4000-8000-000000000001.log";
     lastTail := [];
     continuationCount := 0 |}.

(** A state file written while that task was running. *)
Definition sample_file : PartialAppState :=
  {| p_unlockedUntil := Some 700000; p_currentTask := Some (Some sample_task) |}.

(** The operator has unlocked the bot. *)
Definition unlocked_world : World :=
  step default_config (operator (Unlock "/unlock pw")) (host 100000)
    (main NoFile (Some "pw")).

(** The operator unlocks the bot and starts a task. *)
Definition running_world : World :=
  run_events default_config
    [ (operator (Unlock "/unlock pw"), host 100000);
      (operator (Run "/run write a file"), host 101000) ]
    (main NoFile (Some "pw")).

(** The child prints two lines and exits with code 0. *)
Definition finished_world : World :=
  run_events default_config
    [ (Stdout 0%nat ("created a.txt" ++ JS.nl ++ "done" ++ JS.nl), host 120000);
      (Close 0%nat (Some 0), host 130000) ]
    running_world.

(** The operator pauses the running task. *)
Definition paused_world : World :=
  step default_config (operator Pause) (host 130000) running_world.

(** The operator resumes the paused task: a second burst is running. *)
Definition resumed_world : World :=
  step default_config (operator Continue) (host 140000) paused_world.

(** A chunk of a thousand lines. *)
Definition thousand_lines : string :=
  String.concat "" (repeat ("building..." ++ JS.nl) 1000).

(** The running task has printed a thousand lines on its standard output. *)
Definition full_buffer_world : World :=
  step default_config (Stdout 0%nat thousand_lines) (host 110000) running_world.

(** A pause, a continue, the expiry of the new quantum and a second
    continue after unlocking again. *)
Definition two_continues : list (Event * Env) :=
  [ (operator Pause, host 130000);
    (operator Continue, host 140000);
    (QuantumExpiry 3%nat, host 740000);
    (operator (Unlock "/unlock pw"), host 750000);
    (operator (CallbackQuery (Some "CONTINUE:3f2a9c1e-0000-4000-8000-000000000001")),
     host 751000) ].

(** Three [/run] in a row with the bot unlocked and no task: the first, with
    no description, passes the rate check at 101000; the second, 2000 ms
    later, is rate limited; the third comes 1500 ms after the second. *)
Definition first_attempt : World :=
  cmd_run default_config (host 101000) 55 "/run" unlocked_world.

Definition second_attempt : World :=
  cmd_run default_config (host 103000) 55 "/run write a file" first_attempt.

Definition third_attempt : World :=
  cmd_run default_config (host 104500) 55 "/run write a file" second_attempt.

(* ------------------------------------------------------------------------ *)
(** ** Predicates of the further properties *)

(** The state a restart finds: a running task is read as paused. *)
Definition interrupted (st : AppState) : AppState :=
  {| unlockedUntil := unlockedUntil st;
     currentTask :=
       option_map (fun t => if TaskStatus_eqb (status t) running
                            then set_status paused t else t)
                  (currentTask st) |}.

(** The state file holds the current state. *)
Definition saved (w : World) : Prop :=
  stateFile w = Json {| p_unlockedUntil := Some (unlockedUntil (state w));
                        p_currentTask := Some (currentTask (state w)) |}.

(** What a handler does to the state and its file: it leaves both, or it
    ends with the state saved. *)
Definition persist_change (w w' : World) : Prop :=
  (state w' = state w /\ stateFile w' = stateFile w) \/ saved w'.

(** A restart would find the current state. *)
Definition recoverable (w : World) : Prop :=
  forall secret, state (main (stateFile w) secret) = interrupted (state w).

(** What [/run] fixes for the life of a task. *)
Definition identity (t : TaskState) :=
  (id t, taskText t, startedAt t, chatId t, logFilePath t).

Definition identity_kept (w w' : World) : Prop :=
  option_map identity (currentTask (state w')) = option_map identity (currentTask (state w))
  \/ currentTask (state w') = None.

Definition is_spawn (e : Effect) : bool :=
  match e with Spawn _ _ _ => true | _ => false end.

Definition is_kill (e : Effect) : bool :=
  match e with Kill _ _ => true | _ => false end.

(** A handler that starts no child: the runtime gives out no process, and
    every [Spawn] in the trace was there before. *)
Definition no_spawn (w w' : World) : Prop :=
  nextPid w' = nextPid w /\
  forall e, In e (trace w') -> is_spawn e = true -> In e (trace w).

(** A handler that neither starts a child nor touches what [/run] fixed. *)
Definition quiet (w w' : World) : Prop := identity_kept w w' /\ no_spawn w w'.




(** What a handler does to the burst: it leaves it alone, it leaves no
    running task and no handle, or it begins one. *)
Inductive burst_change (w w' : World) : Prop :=
| bc_kept :
    task_status w' = task_status w ->
    currentProcess w' = currentProcess w ->
    children w' = children w ->
    heartbeatInterval w' = heartbeatInterval w ->
    quantumTimer w' = quantumTimer w ->
    timers w' = timers w ->
    nextTimer w' = nextTimer w ->
    nextPid w' = nextPid w ->
    burst_change w w'
| bc_ended :
    is_status running w' = false ->
    currentProcess w' = None ->
    heartbeatInterval w' = None ->
    quantumTimer w' = None ->
    burst_change w w'
| bc_started :
    timers w' = (S (nextTimer w), Quantum) :: (nextTimer w, Heartbeat) :: timers w ->
    heartbeatInterval w' = Some (nextTimer w) ->
    quantumTimer w' = Some (S (nextTimer w)) ->
    currentProcess w' = Some (nextPid w) ->
    children w' = nextPid w :: children w ->
    is_status running w' = true ->
    burst_change w w'.

(** The non-empty lines of a chunk of output. *)
Definition chunk_lines (data : string) : list string :=
  filter JS.truthy (JS.split JS.newline data).

(** A world without its trace. *)
Definition machine (w : World) : World := set_trace [] w.

(** What a handler does to the signals: it sends none, or it sends one to
    the child it holds and drops the handle. *)
Definition signals_change (w w' : World) : Prop :=
  filter is_kill (trace w') = filter is_kill (trace w)
  \/ exists p sig,
       currentProcess w = Some p /\ currentProcess w' = None /\
       filter is_kill (trace w') = Kill p sig :: filter is_kill (trace w).

(* ======================================================================== *)
(** * Properties *)

Lemma TaskStatus_eqb_eq (a b : TaskStatus) : TaskStatus_eqb a b = true <-> a = b.
Proof. destruct a, b; simpl; split; intro H; try reflexivity; discriminate H. Qed.

Lemma is_status_spec (s : TaskStatus) (w : World) :
  is_status s w = true <-> exists t, currentTask (state w) = Some t /\ status t = s.
Proof.
  unfold is_status. destruct (currentTask (state w)) as [t|].
  - rewrite TaskStatus_eqb_eq. split.
    + intro H. exists t. split; [reflexivity | exact H].
    + intros [t' [E H]]. injection E as <-. exact H.
  - split; [discriminate | intros [t [E _]]; discriminate E].
Qed.

(* ------------------------------------------------------------------------ *)
(** ** Restart *)

Lemma loadState_not_running (w : World) :
  is_status running w = false -> is_status running (loadState w) = false.
Proof.
  intro H. unfold loadState.
  destruct (stateFile w) as [| |loaded]; try exact H.
  set (w1 := set_state (spread (state w) loaded) w).
  destruct (currentTask (state w1)) as [t|] eqn:Et.
  - destruct (TaskStatus_eqb (status t) running) eqn:E.
    + reflexivity.
    + unfold is_status. rewrite Et. exact E.
  - unfold is_status. rewrite Et. reflexivity.
Qed.

Lemma main_task (file : FileContent) (secret : option string) :
  currentTask (state (main file secret))
  = currentTask (state (loadState (initial file secret))).
Proof.
  unfold main.
  set (w := loadState (initial file secret)).
  destruct (secretFile w); destruct (is_status paused _); reflexivity.
Qed.

(** C1. A state file whose task is [running] is loaded with that task
    [paused], and the file is rewritten with it: whatever the file holds, the
    state [main] starts from has no [running] task. *)
Theorem C1_running_task_is_loaded_paused :
  forall (loaded : PartialAppState) (t : TaskState) (w : World),
    stateFile w = Json loaded ->
    p_currentTask loaded = Some (Some t) ->
    status t = running ->
    currentTask (state (loadState w)) = Some (set_status paused t) /\
    stateFile (loadState w)
      = Json {| p_unlockedUntil := Some (unlockedUntil (state (loadState w)));
                p_currentTask := Some (Some (set_status paused t)) |} /\
    (forall secret,
        currentTask (state (main (Json loaded) secret)) = Some (set_status paused t)) /\
    (forall file secret, is_status running (main file secret) = false).
Proof.
  intros loaded t w Hfile Htask Hrun.
  assert (L : forall w0, stateFile w0 = Json loaded ->
                currentTask (state (loadState w0)) = Some (set_status paused t) /\
                stateFile (loadState w0)
                = Json {| p_unlockedUntil := Some (unlockedUntil (state (loadState w0)));
                          p_currentTask := Some (Some (set_status paused t)) |}).
  { intros w0 H0. unfold loadState. rewrite H0.
    unfold spread. simpl. rewrite Htask. simpl.
    rewrite Hrun. simpl. split; reflexivity. }
  destruct (L w Hfile) as [L1 L2].
  repeat split.
  - exact L1.
  - exact L2.
  - intro secret. rewrite main_task. apply (L (initial (Json loaded) secret)). reflexivity.
  - intros file secret. unfold is_status. rewrite main_task.
    apply (loadState_not_running (initial file secret)). reflexivity.
Qed.

Lemma C1_witness :
  task_status (main (Json sample_file) (Some "pw")) = Some paused.
Proof.
  unfold task_status.
  destruct (C1_running_task_is_loaded_paused sample_file sample_task
              (initial (Json sample_file) None) eq_refl eq_refl eq_refl)
    as [_ [_ [H _]]].
  rewrite (H (Some "pw")). reflexivity.
Defined.

(* ------------------------------------------------------------------------ *)
(** ** Case analysis on a world *)

Arguments active_status : simpl never.

Ltac break_world w :=
  destruct w as [[?u ?task] ?proc ?buf ?hb ?qt ?last ?file ?secret ?tm ?nt ?ch ?np ?tr].

(** Unfolds the engine and the record updates, innermost first. *)
Ltac norm :=
  cbv beta iota zeta delta
    [pauseForQuantumTimeout pauseCurrentTask stopCurrentTask on_close on_error
     on_heartbeat on_restart_notice resume
     startExecution spawn startTimers setTimer sendOrEditStatusMessage killProcess
     stopTimers clearTimer saveState push emit tail set_currentTask set_unlockedUntil
     set_state set_currentProcess set_outputBuffer set_heartbeatInterval set_quantumTimer
     set_lastRequestTime set_stateFile set_secretFile set_timers set_nextTimer set_children
     set_nextPid set_trace
     state currentProcess outputBuffer heartbeatInterval quantumTimer lastRequestTime
     stateFile secretFile timers nextTimer children nextPid trace
     currentTask unlockedUntil is_status task_status option_map fst snd negb] in *.

Ltac break_step :=
  match goal with
  | |- context [match editable ?t with _ => _ end] => destruct (editable t) eqn:?
  | |- context [if TaskStatus_eqb ?a ?b then _ else _] => destruct (TaskStatus_eqb a b) eqn:?
  | |- context [match exit_status ?c with _ => _ end] => destruct (exit_status c) eqn:?
  end.

Ltac crush := norm; repeat (break_step; norm).

(** The cases of a world that the engine distinguishes. *)
Ltac cases w r1 r2 :=
  break_world w;
  match goal with
  | task : option TaskState, proc : option Pid, hb : option TimerId, qt : option TimerId |- _ =>
      destruct task, hb, qt, proc, r1, r2
  end.

(* ------------------------------------------------------------------------ *)
(** ** What a handler does to the timers *)

Ltac solve_cc :=
  first
    [ solve [apply cc_kept; norm; first [reflexivity | apply incl_refl | assumption]]
    | solve [apply cc_stopped; norm; first [reflexivity | apply incl_refl | assumption]] ].

Ltac kept := apply cc_kept; first [reflexivity | apply incl_refl].

Lemma is_status_task_status (s : TaskStatus) (w : World) :
  is_status s w
  = match task_status w with Some s' => TaskStatus_eqb s' s | None => false end.
Proof. unfold is_status, task_status. destruct (currentTask (state w)); reflexivity. Qed.

Lemma active_none_not_running (w : World) :
  active_status w = None -> is_status running w = false.
Proof.
  unfold active_status, is_status. destruct (currentTask (state w)) as [t|]; [|reflexivity].
  destruct (status t); simpl; congruence.
Qed.

Lemma stopTimers_timers_ext (w w0 : World) :
  heartbeatInterval w0 = heartbeatInterval w -> quantumTimer w0 = quantumTimer w ->
  timers w0 = timers w -> timers (stopTimers w0) = timers (stopTimers w).
Proof.
  intros Hh Hq Ht. break_world w. break_world w0. simpl in *. subst.
  destruct hb, qt; reflexivity.
Qed.

Lemma cc_transfer (w w0 w' : World) :
  same_control w w0 -> control_change w0 w' -> control_change w w'.
Proof.
  intros (Hs & Hh & Hq & Ht & Hn) H.
  assert (Hr : is_status running w0 = is_status running w)
    by (rewrite !is_status_task_status, Hs; reflexivity).
  destruct H.
  - apply cc_kept; try congruence. rewrite <- Ht; assumption.
  - apply cc_stopped; try congruence.
    rewrite <- (stopTimers_timers_ext w w0 Hh Hq Ht). assumption.
  - apply cc_started; congruence.
Qed.

Lemma exit_status_not_running (code : option Z) :
  TaskStatus_eqb (exit_status code) running = false.
Proof. destruct code as [[| |]|]; reflexivity. Qed.

Section Control.

Variable CONFIG : Config.

Lemma pauseForQuantumTimeout_cc now r1 r2 w :
  control_change w (pauseForQuantumTimeout CONFIG now r1 r2 w).
Proof. cases w r1 r2; crush; solve_cc. Qed.

Lemma pauseCurrentTask_cc now r1 r2 w :
  control_change w (pauseCurrentTask CONFIG now r1 r2 w).
Proof. cases w r1 r2; crush; solve_cc. Qed.

Lemma stopCurrentTask_cc now r1 r2 w :
  control_change w (stopCurrentTask CONFIG now r1 r2 w).
Proof. cases w r1 r2; crush; solve_cc. Qed.

Lemma on_close_cc now r1 r2 code w :
  control_change w (on_close CONFIG now r1 r2 code w).
Proof.
  cases w r1 r2; norm; repeat (break_step; norm); try solve_cc.
  all: apply cc_stopped; norm;
    first [reflexivity | apply incl_refl | assumption | apply exit_status_not_running].
Qed.

Lemma on_error_cc r1 r2 msg w : control_change w (on_error r1 r2 msg w).
Proof. cases w r1 r2; crush; solve_cc. Qed.

Lemma sendOrEditStatusMessage_cc r1 r2 m kb w :
  control_change w (sendOrEditStatusMessage r1 r2 m kb w).
Proof. cases w r1 r2; crush; solve_cc. Qed.

Lemma startExecution_control now_q now_s r1 r2 text isResume w t :
  currentTask (state w) = Some t ->
  let w' := startExecution CONFIG now_q now_s r1 r2 text isResume w in
  timers w' = (S (nextTimer w), Quantum) :: (nextTimer w, Heartbeat) :: timers w /\
  heartbeatInterval w' = Some (nextTimer w) /\
  quantumTimer w' = Some (S (nextTimer w)) /\
  nextTimer w' = S (S (nextTimer w)) /\
  is_status running w' = true.
Proof.
  intros Ht w'. subst w'. break_world w. simpl in Ht. subst task.
  destruct r1, r2; crush; repeat split.
Qed.

(** The output handlers only touch the buffer and the log. *)
Lemma fold_lines_shape (f : string -> string) (lines : list string) (w : World) :
  exists buf tr,
    fold_left (fun acc line =>
                 if JS.truthy line then appendToLog (f line) (push (f line) acc) else acc)
              lines w
    = set_trace tr (set_outputBuffer buf w).
Proof.
  revert w. induction lines as [|l lines IH]; intro w; simpl.
  - exists (outputBuffer w), (trace w). break_world w. reflexivity.
  - destruct (JS.truthy l).
    + destruct (IH (appendToLog (f l) (push (f l) w))) as [buf [tr E]].
      rewrite E. break_world w. unfold appendToLog, push, emit. simpl.
      destruct task; simpl; eexists; eexists; reflexivity.
    + apply IH.
Qed.

Lemma on_stdout_shape data w :
  exists buf tr, on_stdout data w = set_trace tr (set_outputBuffer buf w).
Proof.
  unfold on_stdout.
  destruct (fold_lines_shape (fun l => l) (JS.split JS.newline data) w) as [buf [tr E]].
  rewrite E. simpl.
  destruct (1000 <? Z.of_nat (List.length buf)); break_world w; simpl;
    eexists; eexists; reflexivity.
Qed.

Lemma on_stderr_shape data w :
  exists buf tr, on_stderr data w = set_trace tr (set_outputBuffer buf w).
Proof.
  unfold on_stderr.
  exact (fold_lines_shape (fun l => "[ERR] " ++ l) (JS.split JS.newline data) w).
Qed.

End Control.

Lemma cc_after (w w1 w2 : World) :
  control_change w w1 -> same_control w1 w2 -> control_change w w2.
Proof.
  intros H (Hs & Hh & Hq & Ht & Hn).
  assert (Hr : is_status running w2 = is_status running w1)
    by (rewrite !is_status_task_status, Hs; reflexivity).
  destruct H.
  - apply cc_kept; try congruence. rewrite Ht; assumption.
  - apply cc_stopped; try congruence. rewrite Ht; assumption.
  - apply cc_started; congruence.
Qed.

Lemma same_control_emit (e : Effect) (w : World) : same_control w (emit e w).
Proof. repeat split. Qed.

Section Commands.

Variable CONFIG : Config.

Lemma resume_cc env announce t w :
  currentTask (state w) = Some t -> status t = paused ->
  control_change w (resume CONFIG env announce t w).
Proof.
  intros Ht Hp. unfold resume.
  match goal with |- control_change _ (startExecution _ ?a ?b ?c ?d ?e ?f ?w4) =>
    destruct (startExecution_control CONFIG a b c d e f w4 _ eq_refl)
      as (H1 & H2 & H3 & H4 & H5)
  end.
  apply cc_started; try assumption.
  unfold is_status. rewrite Ht, Hp. reflexivity.
Qed.

Lemma cmd_run_cc env chat text w : control_change w (cmd_run CONFIG env chat text w).
Proof.
  unfold cmd_run.
  destruct (negb (isUnlocked (clock env 0%nat) w)); [kept|].
  unfold rateLimitCheck.
  destruct (clock env 1%nat - lastRequestTime w <? RATE_LIMIT_MS); simpl; [kept|].
  destruct (active_status (set_lastRequestTime (clock env 1%nat) w)) eqn:Ea; [kept|].
  destruct (negb (JS.truthy (command_args text))); [kept|].
  match goal with |- control_change _ (startExecution _ ?a ?b ?c ?d ?e ?f ?w4) =>
    destruct (startExecution_control CONFIG a b c d e f w4 _ eq_refl)
      as (H1 & H2 & H3 & H4 & H5)
  end.
  apply cc_started; try assumption.
  apply active_none_not_running in Ea. exact Ea.
Qed.

Lemma cmd_continue_cc env w : control_change w (cmd_continue CONFIG env w).
Proof.
  unfold cmd_continue.
  destruct (negb (isUnlocked (clock env 0%nat) w)); [kept|].
  destruct (currentTask (state w)) as [t|] eqn:Et; [|kept].
  destruct (TaskStatus_eqb (status t) paused) eqn:Ep; simpl; [|kept].
  apply resume_cc; [exact Et | apply TaskStatus_eqb_eq; exact Ep].
Qed.

Lemma cmd_unlock_cc env text w : control_change w (cmd_unlock CONFIG env text w).
Proof.
  unfold cmd_unlock.
  destruct (negb (JS.truthy (command_args text))); [kept|].
  destruct (getStoredPassword w) as [pw|]; [|kept].
  destruct (negb (JS.truthy pw)); [kept|].
  destruct (String.eqb (command_args text) pw); kept.
Qed.

Lemma cmd_stop_cc env w : control_change w (cmd_stop CONFIG env w).
Proof.
  unfold cmd_stop. destruct (currentTask (state w)); [|kept].
  eapply cc_after; [apply stopCurrentTask_cc | apply same_control_emit].
Qed.

Lemma cmd_cancel_cc w : control_change w (cmd_cancel w).
Proof.
  break_world w. destruct task, hb, qt, proc; unfold cmd_cancel; crush; solve_cc.
Qed.

Lemma cmd_pause_cc env w : control_change w (cmd_pause CONFIG env w).
Proof.
  unfold cmd_pause. destruct (negb (is_status running w)); [kept|].
  apply pauseCurrentTask_cc.
Qed.

Lemma cmd_status_cc env w : control_change w (cmd_status CONFIG env w).
Proof. unfold cmd_status. destruct (currentTask (state w)); kept. Qed.

Lemma on_callback_query_cc env from data w :
  control_change w (on_callback_query CONFIG env from data w).
Proof.
  unfold on_callback_query.
  destruct data as [data|]; [|kept].
  destruct (negb (from =? ALLOWED_USER_ID CONFIG)); [kept|].
  destruct (String.eqb data "STATUS").
  { destruct (currentTask (state w)); [|kept].
    eapply cc_transfer; [apply same_control_emit | apply sendOrEditStatusMessage_cc]. }
  destruct (String.eqb data "LOCK"); [kept|].
  destruct (String.eqb data "STOP_PANEL").
  { destruct (currentTask (state w)); [|kept].
    eapply cc_transfer; [apply same_control_emit | apply stopCurrentTask_cc]. }
  destruct (String.eqb data "PAUSE").
  { destruct (negb (is_status running w)); [kept|].
    eapply cc_transfer; [apply same_control_emit | apply pauseCurrentTask_cc]. }
  destruct (String.prefix "CONTINUE:" data).
  { destruct (negb (isUnlocked (clock env 0%nat) w)); [kept|].
    destruct (currentTask (state w)) as [t|] eqn:Et; [|kept].
    destruct (String.eqb (id t) _); simpl; [|kept].
    destruct (TaskStatus_eqb (status t) paused) eqn:Ep; simpl; [|kept].
    apply resume_cc; [exact Et | apply TaskStatus_eqb_eq; exact Ep]. }
  destruct (String.prefix "STOP:" data); [|kept].
  destruct (currentTask (state w)) as [t|]; [|kept].
  destruct (negb (String.eqb (id t) _)); [kept|].
  eapply cc_transfer; [apply same_control_emit | apply stopCurrentTask_cc].
Qed.

Lemma handle_cc env from chat u w : control_change w (handle CONFIG env from chat u w).
Proof.
  destruct u; simpl.
  - kept.
  - apply cmd_unlock_cc.
  - kept.
  - apply cmd_run_cc.
  - apply cmd_status_cc.
  - apply cmd_continue_cc.
  - apply cmd_stop_cc.
  - apply cmd_cancel_cc.
  - apply cmd_pause_cc.
  - apply on_callback_query_cc.
Qed.

Lemma on_heartbeat_cc env w : control_change w (on_heartbeat CONFIG env w).
Proof.
  unfold on_heartbeat. destruct (currentTask (state w)) as [t|]; [|kept].
  destruct (TaskStatus_eqb (status t) running); [|kept].
  apply sendOrEditStatusMessage_cc.
Qed.

Lemma on_restart_notice_cc env w : control_change w (on_restart_notice CONFIG env w).
Proof.
  break_world w. destruct task; unfold on_restart_notice; norm; [|kept].
  destruct (tg1 env); kept.
Qed.

End Commands.

(* ------------------------------------------------------------------------ *)
(** ** The timers of a burst belong to a running task *)

Lemma In_stopTimers (w : World) (p : TimerId * TimerKind) :
  In p (timers (stopTimers w)) ->
  In p (timers w) /\ heartbeatInterval w <> Some (fst p) /\ quantumTimer w <> Some (fst p).
Proof.
  break_world w. destruct hb as [h|], qt as [q|]; simpl;
    rewrite ?filter_In; intro H.
  - destruct H as [[H Hh] Hq]. repeat split; [exact H | |]; intro E; injection E as ->;
      rewrite Nat.eqb_refl in *; discriminate.
  - destruct H as [H Hh]. repeat split; [exact H | | discriminate].
    intro E; injection E as ->; rewrite Nat.eqb_refl in *; discriminate.
  - destruct H as [H Hq]. repeat split; [exact H | discriminate |].
    intro E; injection E as ->; rewrite Nat.eqb_refl in *; discriminate.
  - repeat split; [exact H | discriminate | discriminate].
Qed.



Lemma clearTimer_cc (t : TimerId) (k : TimerKind) (w : World) :
  control_change w (clearTimer t k w).
Proof.
  apply cc_kept; try reflexivity. intros p Hp. simpl in Hp. apply filter_In in Hp. apply Hp.
Qed.

Lemma loadState_control (w : World) :
  timers (loadState w) = timers w /\
  heartbeatInterval (loadState w) = heartbeatInterval w /\
  quantumTimer (loadState w) = quantumTimer w /\
  nextTimer (loadState w) = nextTimer w.
Proof.
  unfold loadState. destruct (stateFile w) as [| |loaded]; try (repeat split; fail).
  set (w1 := set_state (spread (state w) loaded) w).
  destruct (currentTask (state w1)) as [t|]; [|repeat split].
  destruct (TaskStatus_eqb (status t) running); repeat split.
Qed.


Section Invariant.

Variable CONFIG : Config.



Lemma pending_In (t : TimerId) (k : TimerKind) (w : World) :
  pending t k w = true <-> In (t, k) (timers w).
Proof.
  unfold pending. rewrite existsb_exists. split.
  - intros [[t' k'] [Hin E]]. simpl in E. apply andb_true_iff in E. destruct E as [E1 E2].
    apply Nat.eqb_eq in E1. subst t'.
    destruct k, k'; simpl in E2; try discriminate; exact Hin.
  - intro Hin. exists (t, k). split; [exact Hin|]. simpl.
    rewrite Nat.eqb_refl. destruct k; reflexivity.
Qed.

End Invariant.

(* ------------------------------------------------------------------------ *)
(** ** The sample runs are runs of the bot *)

Lemma running_world_reachable : Reachable default_config running_world.
Proof.
  apply reach_step; [apply reach_step; [apply reach_main | reflexivity] | reflexivity].
Qed.

Lemma finished_world_reachable : Reachable default_config finished_world.
Proof.
  apply reach_step;
    [apply reach_step; [apply running_world_reachable | reflexivity] | reflexivity].
Qed.

Lemma paused_world_reachable : Reachable default_config paused_world.
Proof. apply reach_step; [apply running_world_reachable | reflexivity]. Qed.

Lemma resumed_world_reachable : Reachable default_config resumed_world.
Proof. apply reach_step; [apply paused_world_reachable | reflexivity]. Qed.

(* ------------------------------------------------------------------------ *)
(** ** Quantum expiry against the operator's pause *)

Section Pause.

Variable CONFIG : Config.


Lemma pauseCurrentTask_paused now r1 r2 w t :
  currentTask (state w) = Some t ->
  task_status (pauseCurrentTask CONFIG now r1 r2 w) = Some paused.
Proof.
  intro Ht. break_world w. simpl in Ht. subst task.
  destruct hb, qt, proc, r1, r2; crush; reflexivity.
Qed.

Lemma cmd_pause_not_running env w :
  is_status running w = false ->
  cmd_pause CONFIG env w = emit (Reply MNoRunningTask NoKeyboard) w.
Proof. intro H. unfold cmd_pause. rewrite H. reflexivity. Qed.




End Pause.




(* ------------------------------------------------------------------------ *)
(** ** Timers across bursts *)







(* ------------------------------------------------------------------------ *)
(** ** [/run] while a task is active *)

Lemma active_status_spec (w : World) (t : TaskState) :
  currentTask (state w) = Some t ->
  status t = running \/ status t = paused ->
  active_status w = Some (status t).
Proof.
  intros Ht [H | H]; unfold active_status; rewrite Ht, H; reflexivity.
Qed.

(** C3 as stated does not hold while the bot is locked: the gate is checked
    first, and [/run] on a running task is then refused as locked. *)
Lemma C3_counterexample :
  task_status running_world = Some running /\
  trace (cmd_run default_config (host 800000) 55 "/run another task" running_world)
  = Reply MLockedUseUnlock NoKeyboard :: trace running_world.
Proof. split; vm_compute; reflexivity. Qed.

(** C3, amended.  While a task is running or paused, [/run] is always
    refused with one reply and leaves the task, the child, the buffer, the
    timers and the state file as they are.  The reply is the first that
    applies of: locked, rate limited, task already active (with the status
    of the task). *)
Theorem C3_run_refused_while_task_active :
  forall (cfg : Config) (env : Env) (chat : Z) (text : string) (w : World) (t : TaskState),
    currentTask (state w) = Some t ->
    status t = running \/ status t = paused ->
    let w' := cmd_run cfg env chat text w in
    state w' = state w /\
    currentProcess w' = currentProcess w /\
    outputBuffer w' = outputBuffer w /\
    timers w' = timers w /\
    stateFile w' = stateFile w /\
    trace w' =
      Reply (if negb (isUnlocked (clock env 0%nat) w) then MLockedUseUnlock
             else if clock env 1%nat - lastRequestTime w <? RATE_LIMIT_MS then MRateLimited
             else MTaskAlready (status t)) NoKeyboard
      :: trace w.
Proof.
  intros cfg env chat text w t Ht Hs w'. subst w'.
  pose proof (active_status_spec w t Ht Hs) as Ha.
  unfold cmd_run.
  destruct (negb (isUnlocked (clock env 0%nat) w)); [repeat split|].
  unfold rateLimitCheck.
  destruct (clock env 1%nat - lastRequestTime w <? RATE_LIMIT_MS); simpl; [repeat split|].
  change (active_status (set_lastRequestTime (clock env 1%nat) w)) with (active_status w).
  rewrite Ha. repeat split.
Qed.

Lemma C3_witness :
  trace (cmd_run default_config (host 140000) 55 "/run another task" paused_world)
  = Reply (MTaskAlready paused) NoKeyboard :: trace paused_world.
Proof.
  refine (proj2 (proj2 (proj2 (proj2 (proj2
    (C3_run_refused_while_task_active default_config (host 140000) 55
       "/run another task" paused_world
       (set_lastTail [] (set_status paused
          sample_task))
       eq_refl (or_intror eq_refl))))))).
Defined.

(* ------------------------------------------------------------------------ *)
(** ** The output buffer *)

Lemma slice_last_length (A : Type) (n : Z) (l : list A) :
  0 < n -> List.length (JS.slice (- n) l) = Nat.min (Z.to_nat n) (List.length l).
Proof.
  intro Hn. unfold JS.slice, JS.slice_start.
  destruct (- n <? 0) eqn:E; [|apply Z.ltb_ge in E; lia].
  rewrite length_skipn. lia.
Qed.

(** A slice is a suffix: the lines keep their order of arrival. *)
Lemma slice_suffix (A : Type) (start : Z) (l : list A) :
  exists dropped, l = (dropped ++ JS.slice start l)%list.
Proof.
  unfold JS.slice. eexists. symmetry. apply firstn_skipn.
Qed.

(** [slice(-0)] is [slice(0)]: with [TAIL_LINES = 0] the tail is the whole
    buffer. *)
Lemma slice_minus_zero (A : Type) (l : list A) : JS.slice (- 0) l = l.
Proof.
  unfold JS.slice, JS.slice_start. simpl.
  replace (Z.to_nat (Z.min 0 (Z.of_nat (List.length l)))) with 0%nat by lia.
  reflexivity.
Qed.

(** After a chunk of standard output the buffer holds at most 1000 lines. *)
Lemma on_stdout_bounded (data : string) (w : World) :
  (List.length (outputBuffer (on_stdout data w)) <= 1000)%nat.
Proof.
  unfold on_stdout.
  destruct (fold_lines_shape (fun l => l) (JS.split JS.newline data) w) as [buf [tr E]].
  rewrite E. simpl.
  destruct (1000 <? Z.of_nat (List.length buf)) eqn:H; simpl.
  - pose proof (slice_last_length string 500 buf ltac:(lia)) as L.
    change (- (500)) with (-500) in L. rewrite L. lia.
  - apply Z.ltb_ge in H. lia.
Qed.

(** The tail shown to the operator: at most [TAIL_LINES] lines, the last
    ones, when [TAIL_LINES] is positive. *)
Lemma tail_length (cfg : Config) (w : World) :
  0 < TAIL_LINES cfg ->
  List.length (tail cfg w)
  = Nat.min (Z.to_nat (TAIL_LINES cfg)) (List.length (outputBuffer w)).
Proof. intro H. apply slice_last_length. exact H. Qed.

(** C4 fails on the error stream: the [stderr] handler appends without the
    compaction the [stdout] handler does, so one line on [stderr] takes a
    buffer of 1000 lines to 1001. *)
Theorem C4_stderr_append_exceeds_high_water :
  enabled (Stderr 0%nat "warning: deprecated option") full_buffer_world = true /\
  List.length (outputBuffer full_buffer_world) = 1000%nat /\
  List.length (outputBuffer
                 (step default_config (Stderr 0%nat "warning: deprecated option")
                    (host 111000) full_buffer_world)) = 1001%nat.
Proof. vm_compute. repeat split; reflexivity. Qed.

(* ------------------------------------------------------------------------ *)
(** ** The access gate *)

Section Gate.

Variable CONFIG : Config.

Lemma stopCurrentTask_clears now r1 r2 w t :
  currentTask (state w) = Some t ->
  currentTask (state (stopCurrentTask CONFIG now r1 r2 w)) = None.
Proof.
  intro Ht. break_world w. simpl in Ht. subst task.
  destruct hb, qt, proc, r1, r2; crush; reflexivity.
Qed.

Lemma cmd_cancel_clears w t :
  currentTask (state w) = Some t -> currentTask (state (cmd_cancel w)) = None.
Proof.
  intro Ht. break_world w. simpl in Ht. subst task.
  destruct hb, qt, proc; unfold cmd_cancel; crush; reflexivity.
Qed.

End Gate.

(** C6. [/pause], [/stop], [/cancel] and [/status] never look at the gate:
    whatever [unlockedUntil] is, [/pause] pauses a running task, [/stop] and
    [/cancel] remove an existing task, [/status] answers with the panel of
    an existing task, and each only answers that there is nothing to act on
    otherwise.  [/run], [/continue] and the CONTINUE button are refused
    while the bot is locked and change nothing. *)
Theorem C6_safety_commands_ignore_the_gate :
  forall (cfg : Config) (env : Env) (w : World),
    (* pause *)
    (is_status running w = true -> task_status (cmd_pause cfg env w) = Some paused) /\
    (is_status running w = false ->
       cmd_pause cfg env w = emit (Reply MNoRunningTask NoKeyboard) w) /\
    (* stop, cancel, status *)
    (forall t, currentTask (state w) = Some t ->
       currentTask (state (cmd_stop cfg env w)) = None /\
       currentTask (state (cmd_cancel w)) = None /\
       cmd_status cfg env w
       = emit (Reply (MStatus (buildStatusText cfg (clock env 0%nat) t w) NoNote)
                     (match status t with
                      | paused => PausedKeyboard (id t)
                      | _ => ControlPanelKeyboard
                      end)) w) /\
    (currentTask (state w) = None ->
       cmd_stop cfg env w = emit (Reply MNoTaskToStop NoKeyboard) w /\
       cmd_cancel w = emit (Reply MNoTaskToCancel NoKeyboard) w /\
       cmd_status cfg env w = emit (Reply MNoActiveTask NoKeyboard) w) /\
    (* run, continue *)
    (isUnlocked (clock env 0%nat) w = false ->
       (forall chat text,
           cmd_run cfg env chat text w = emit (Reply MLockedUseUnlock NoKeyboard) w) /\
       cmd_continue cfg env w = emit (Reply MLockedUseUnlock NoKeyboard) w /\
       (forall taskId,
           on_callback_query cfg env (ALLOWED_USER_ID cfg) (Some ("CONTINUE:" ++ taskId)) w
           = emit (AnswerCbQuery CbBotIsLocked) w)).
Proof.
  intros cfg env w. split; [|split; [|split; [|split]]].
  - intro Hr. unfold cmd_pause. rewrite Hr. simpl.
    apply is_status_spec in Hr. destruct Hr as (t & Ht & _).
    apply (pauseCurrentTask_paused cfg _ _ _ w t Ht).
  - apply cmd_pause_not_running.
  - intros t Ht. split; [|split].
    + unfold cmd_stop. rewrite Ht.
      apply (stopCurrentTask_clears cfg _ _ _ w t Ht).
    + apply (cmd_cancel_clears w t Ht).
    + unfold cmd_status. rewrite Ht. reflexivity.
  - intro Hn. unfold cmd_stop, cmd_cancel, cmd_status. rewrite Hn. repeat split.
  - intro Hl. split; [|split].
    + intros chat text. unfold cmd_run. rewrite Hl. reflexivity.
    + unfold cmd_continue. rewrite Hl. reflexivity.
    + intro taskId. unfold on_callback_query. rewrite Z.eqb_refl. simpl.
      rewrite Hl. destruct taskId; reflexivity.
Qed.

Lemma C6_witness :
  task_status (cmd_pause default_config (host 800000) running_world) = Some paused /\
  isUnlocked 800000 running_world = false.
Proof.
  split; [|reflexivity].
  exact (proj1 (C6_safety_commands_ignore_the_gate default_config (host 800000)
                  running_world) eq_refl).
Defined.

(* ------------------------------------------------------------------------ *)
(** ** The end of the child process *)



(* ------------------------------------------------------------------------ *)
(** ** Resuming a paused task *)


Lemma string_append_assoc (a b c : string) : ((a ++ b) ++ c = a ++ (b ++ c))%string.
Proof. induction a as [|x a IH]; simpl; [reflexivity | rewrite IH; reflexivity]. Qed.





(* ------------------------------------------------------------------------ *)
(** ** The continuation count *)

Lemma count_kept_refl (w : World) : count_kept w w.
Proof. left. reflexivity. Qed.

Lemma count_kept_from (w w0 w' : World) :
  count w0 = count w -> count_kept w0 w' -> count_kept w w'.
Proof. intros E [H | H]; [left; congruence | right; exact H]. Qed.

Lemma count_kept_then (w w1 w2 : World) :
  count_kept w w1 -> currentTask (state w2) = currentTask (state w1) -> count_kept w w2.
Proof.
  intros [H | H] E; [left | right]; unfold count in *; congruence.
Qed.

Ltac ck := first [apply count_kept_refl | left; reflexivity].

Ltac solve_count :=
  unfold count_kept, count; crush; first [left; reflexivity | right; reflexivity].

Section Count.

Variable CONFIG : Config.

Lemma pauseForQuantumTimeout_count now r1 r2 w :
  count_kept w (pauseForQuantumTimeout CONFIG now r1 r2 w).
Proof. cases w r1 r2; solve_count. Qed.

Lemma pauseCurrentTask_count now r1 r2 w :
  count_kept w (pauseCurrentTask CONFIG now r1 r2 w).
Proof. cases w r1 r2; solve_count. Qed.

Lemma stopCurrentTask_count now r1 r2 w :
  count_kept w (stopCurrentTask CONFIG now r1 r2 w).
Proof. cases w r1 r2; solve_count. Qed.

Lemma on_close_count now r1 r2 code w :
  count_kept w (on_close CONFIG now r1 r2 code w).
Proof. cases w r1 r2; solve_count. Qed.

Lemma on_error_count r1 r2 msg w : count_kept w (on_error r1 r2 msg w).
Proof. cases w r1 r2; solve_count. Qed.

Lemma sendOrEditStatusMessage_count r1 r2 m kb w :
  count_kept w (sendOrEditStatusMessage r1 r2 m kb w).
Proof. cases w r1 r2; solve_count. Qed.

Lemma cmd_cancel_count w : count_kept w (cmd_cancel w).
Proof. break_world w. destruct task, hb, qt, proc; unfold cmd_cancel; solve_count. Qed.

Lemma on_heartbeat_count env w : count_kept w (on_heartbeat CONFIG env w).
Proof.
  unfold on_heartbeat. destruct (currentTask (state w)) as [t|]; [|apply count_kept_refl].
  destruct (TaskStatus_eqb (status t) running); [|apply count_kept_refl].
  apply sendOrEditStatusMessage_count.
Qed.

Lemma on_restart_notice_count env w : count_kept w (on_restart_notice CONFIG env w).
Proof.
  break_world w. destruct task; unfold on_restart_notice, count_kept, count; norm;
    [|left; reflexivity].
  destruct (tg1 env); left; reflexivity.
Qed.

Lemma startExecution_count now_q now_s r1 r2 text isResume w t :
  currentTask (state w) = Some t ->
  count (startExecution CONFIG now_q now_s r1 r2 text isResume w)
  = Some (continuationCount t).
Proof.
  intro Ht. break_world w. simpl in Ht. subst task.
  destruct r1, r2; unfold count; crush; reflexivity.
Qed.

Lemma resume_count env announce t w :
  count (resume CONFIG env announce t w) = Some (continuationCount t + 1).
Proof.
  unfold resume.
  match goal with |- count (startExecution _ ?a ?b ?c ?d ?e ?f ?w4) = _ =>
    rewrite (startExecution_count a b c d e f w4 _ eq_refl)
  end.
  reflexivity.
Qed.

Lemma cmd_run_count env chat text w :
  if run_accepted env text w
  then count (cmd_run CONFIG env chat text w) = Some 0
  else count (cmd_run CONFIG env chat text w) = count w.
Proof.
  unfold run_accepted, cmd_run, rateLimitCheck.
  destruct (isUnlocked (clock env 0%nat) w); simpl; [|reflexivity].
  destruct (clock env 1%nat - lastRequestTime w <? RATE_LIMIT_MS); simpl; [reflexivity|].
  change (active_status (set_lastRequestTime (clock env 1%nat) w)) with (active_status w).
  destruct (active_status w); simpl; [reflexivity|].
  destruct (JS.truthy (command_args text)); simpl; [|reflexivity].
  match goal with |- count (startExecution _ ?a ?b ?c ?d ?e ?f ?w4) = _ =>
    rewrite (startExecution_count a b c d e f w4 _ eq_refl)
  end.
  reflexivity.
Qed.

Lemma cmd_continue_count env w :
  if continue_accepted env w
  then exists c, count w = Some c /\ count (cmd_continue CONFIG env w) = Some (c + 1)
  else count (cmd_continue CONFIG env w) = count w.
Proof.
  unfold continue_accepted, cmd_continue, is_status.
  destruct (isUnlocked (clock env 0%nat) w); simpl; [|reflexivity].
  destruct (currentTask (state w)) as [t|] eqn:Et; [|reflexivity].
  destruct (TaskStatus_eqb (status t) paused); simpl; [|reflexivity].
  exists (continuationCount t). split; [unfold count; rewrite Et; reflexivity|].
  apply resume_count.
Qed.

End Count.

Section CountSteps.

Variable CONFIG : Config.

Lemma on_callback_query_count env from data w :
  if button_accepted CONFIG env from data w
  then exists c, count w = Some c /\
                 count (on_callback_query CONFIG env from (Some data) w) = Some (c + 1)
  else count_kept w (on_callback_query CONFIG env from (Some data) w).
Proof.
  unfold button_accepted, on_callback_query.
  destruct (from =? ALLOWED_USER_ID CONFIG); simpl; [|ck].
  destruct (String.eqb data "STATUS"); simpl.
  { destruct (currentTask (state w)); [|ck].
    eapply count_kept_from; [|apply sendOrEditStatusMessage_count]. reflexivity. }
  destruct (String.eqb data "LOCK"); simpl; [ck|].
  destruct (String.eqb data "STOP_PANEL"); simpl.
  { destruct (currentTask (state w)); [|ck].
    eapply count_kept_from; [|apply stopCurrentTask_count]. reflexivity. }
  destruct (String.eqb data "PAUSE"); simpl.
  { destruct (negb (is_status running w)); [ck|].
    eapply count_kept_from; [|apply pauseCurrentTask_count]. reflexivity. }
  destruct (String.prefix "CONTINUE:" data); simpl.
  { destruct (isUnlocked (clock env 0%nat) w); simpl; [|ck].
    destruct (currentTask (state w)) as [t|] eqn:Et; [|ck].
    destruct (String.eqb (id t) _); simpl; [|ck].
    destruct (TaskStatus_eqb (status t) paused); simpl; [|ck].
    exists (continuationCount t). split; [unfold count; rewrite Et; reflexivity|].
    apply resume_count. }
  destruct (String.prefix "STOP:" data); [|ck].
  destruct (currentTask (state w)) as [t|]; [|ck].
  destruct (negb (String.eqb (id t) _)); [ck|].
  eapply count_kept_from; [|apply stopCurrentTask_count]. reflexivity.
Qed.

Lemma cmd_unlock_count env text w : count_kept w (cmd_unlock CONFIG env text w).
Proof.
  unfold cmd_unlock.
  destruct (negb (JS.truthy (command_args text))); [ck|].
  destruct (getStoredPassword w) as [pw|]; [|ck].
  destruct (negb (JS.truthy pw)); [ck|].
  destruct (String.eqb (command_args text) pw); ck.
Qed.

(** What one turn of the event loop does to the count. *)
Lemma step_count ev env w :
  (starts CONFIG ev env w = true -> count (step CONFIG ev env w) = Some 0) /\
  (resumes CONFIG ev env w = true ->
     exists c, count w = Some c /\ count (step CONFIG ev env w) = Some (c + 1)) /\
  (starts CONFIG ev env w = false -> resumes CONFIG ev env w = false ->
     count_kept w (step CONFIG ev env w)).
Proof.
  destruct ev as [from priv chat u | p data | p data | p msg | p code | t | t | t];
    cbn [step starts resumes];
    try (split; [intro X; discriminate X | split; [intro X; discriminate X | intros _ _]]).
  - destruct from as [user|].
    2: { destruct u as [| | | | | | | | |[d|]]; cbn [starts resumes isAllowedUser andb];
         (split; [intro X; discriminate X | split; [intro X; discriminate X | intros _ _; ck]]). }
    destruct (isAllowedUser (ALLOWED_USER_ID CONFIG) (Some user) priv) eqn:Ea.
    2: { destruct u as [| | | | | | | | |[d|]]; cbn [starts resumes andb];
         (split; [intro X; discriminate X | split; [intro X; discriminate X | intros _ _; ck]]). }
    destruct u as [|text| |text| | | | | |[data|]]; cbn [handle starts resumes andb];
      try (split; [intro X; discriminate X | split; [intro X; discriminate X | intros _ _]]).
    + ck.
    + apply cmd_unlock_count.
    + ck.
    + pose proof (cmd_run_count CONFIG env chat text w) as H.
      destruct (run_accepted env text w); cbn [andb].
      * split; [intros _; exact H | split; intro X; discriminate X].
      * split; [intro X; discriminate X
               | split; [intro X; discriminate X | intros _ _; left; exact H]].
    + unfold cmd_status. destruct (currentTask (state w)); ck.
    + pose proof (cmd_continue_count CONFIG env w) as H.
      destruct (continue_accepted env w); cbn [andb].
      * split; [intro X; discriminate X
               | split; [intros _; exact H | intros _ X; discriminate X]].
      * split; [intro X; discriminate X
               | split; [intro X; discriminate X | intros _ _; left; exact H]].
    + unfold cmd_stop. destruct (currentTask (state w)); [|ck].
      eapply count_kept_then; [apply stopCurrentTask_count | reflexivity].
    + apply cmd_cancel_count.
    + unfold cmd_pause. destruct (negb (is_status running w)); [ck|].
      apply pauseCurrentTask_count.
    + pose proof (on_callback_query_count env user data w) as H.
      destruct (button_accepted CONFIG env user data w); cbn [andb].
      * split; [intro X; discriminate X
               | split; [intros _; exact H | intros _ X; discriminate X]].
      * split; [intro X; discriminate X
               | split; [intro X; discriminate X | intros _ _; exact H]].
    + ck.
  - destruct (on_stdout_shape data w) as [buf [tr E]]. rewrite E. ck.
  - destruct (on_stderr_shape data w) as [buf [tr E]]. rewrite E. ck.
  - apply on_error_count.
  - eapply count_kept_from; [|apply on_close_count]. reflexivity.
  - apply on_heartbeat_count.
  - eapply count_kept_from; [|apply pauseForQuantumTimeout_count]. reflexivity.
  - eapply count_kept_from; [|apply on_restart_notice_count]. reflexivity.
Qed.

Lemma run_events_no_task evs w :
  started CONFIG evs w = false -> count w = None -> count (run_events CONFIG evs w) = None.
Proof.
  revert w. induction evs as [|[ev env] evs IH]; intros w Hs Hc; simpl in *; [exact Hc|].
  apply orb_false_iff in Hs. destruct Hs as [Hs1 Hs2].
  apply IH; [exact Hs2|].
  destruct (step_count ev env w) as (_ & Hr & Hk).
  destruct (resumes CONFIG ev env w) eqn:Er.
  - destruct (Hr eq_refl) as (c & Hc' & _). congruence.
  - destruct (Hk Hs1 eq_refl) as [H | H]; [congruence|].
    unfold count. rewrite H. reflexivity.
Qed.

Lemma run_events_count evs w c c' :
  started CONFIG evs w = false ->
  count w = Some c ->
  count (run_events CONFIG evs w) = Some c' ->
  c' = c + resumed CONFIG evs w.
Proof.
  revert w c. induction evs as [|[ev env] evs IH]; intros w c Hs Hc Hc'; simpl in *.
  - rewrite Hc in Hc'. injection Hc' as <-. lia.
  - apply orb_false_iff in Hs. destruct Hs as [Hs1 Hs2].
    destruct (step_count ev env w) as (_ & Hr & Hk).
    destruct (resumes CONFIG ev env w) eqn:Er.
    + destruct (Hr eq_refl) as (c0 & Hc0 & Hstep).
      rewrite Hc in Hc0. injection Hc0 as <-.
      rewrite (IH _ (c + 1) Hs2 Hstep Hc'). lia.
    + destruct (Hk Hs1 eq_refl) as [H | H].
      * rewrite Hc in H. rewrite (IH _ c Hs2 H Hc'). lia.
      * assert (Hn : count (step CONFIG ev env w) = None)
          by (unfold count; rewrite H; reflexivity).
        rewrite (run_events_no_task evs _ Hs2 Hn) in Hc'. discriminate.
Qed.

End CountSteps.

Lemma resumed_nonneg (cfg : Config) (evs : list (Event * Env)) (w : World) :
  0 <= resumed cfg evs w.
Proof.
  revert w. induction evs as [|[ev env] evs IH]; intro w; simpl; [lia|].
  specialize (IH (step cfg ev env w)). destruct (resumes cfg ev env w); lia.
Qed.

(** C9. A task is created with count 0; a successful continue (the command
    or the button) adds one; every other event leaves the count of the task
    as it is, or leaves no task.  So along a run that creates no other task,
    the count of the task is the count it had plus the number of successful
    continues, hence never smaller, and it is their number when the run
    begins with the creation of the task. *)
Theorem C9_count_is_the_number_of_continues :
  forall cfg : Config,
    (forall ev env w,
        starts cfg ev env w = true -> count (step cfg ev env w) = Some 0) /\
    (forall ev env w,
        resumes cfg ev env w = true ->
        exists c, count w = Some c /\ count (step cfg ev env w) = Some (c + 1)) /\
    (forall ev env w,
        starts cfg ev env w = false -> resumes cfg ev env w = false ->
        count (step cfg ev env w) = count w \/
        currentTask (state (step cfg ev env w)) = None) /\
    (forall evs w c c',
        started cfg evs w = false ->
        count w = Some c ->
        count (run_events cfg evs w) = Some c' ->
        c' = c + resumed cfg evs w /\ c <= c') /\
    (forall ev env w evs n,
        starts cfg ev env w = true ->
        started cfg evs (step cfg ev env w) = false ->
        count (run_events cfg evs (step cfg ev env w)) = Some n ->
        n = resumed cfg evs (step cfg ev env w)).
Proof.
  intro cfg. split; [|split; [|split; [|split]]].
  - intros ev env w. apply (step_count cfg ev env w).
  - intros ev env w. apply (step_count cfg ev env w).
  - intros ev env w. apply (step_count cfg ev env w).
  - intros evs w c c' Hs Hc Hc'.
    pose proof (run_events_count cfg evs w c c' Hs Hc Hc') as E.
    pose proof (resumed_nonneg cfg evs w). split; [exact E | lia].
  - intros ev env w evs n Hs Hn Hc.
    pose proof (proj1 (step_count cfg ev env w) Hs) as H0.
    rewrite (run_events_count cfg evs _ 0 n Hn H0 Hc). lia.
Qed.

Lemma C9_witness :
  resumed default_config two_continues running_world = 2 /\
  count (run_events default_config two_continues running_world) = Some 2.
Proof.
  split; [|reflexivity].
  symmetry.
  exact (proj2 (proj2 (proj2 (proj2 (C9_count_is_the_number_of_continues default_config))))
           (operator (Run "/run write a file")) (host 101000) unlocked_world
           two_continues 2 eq_refl eq_refl eq_refl).
Defined.

(* ------------------------------------------------------------------------ *)
(** ** The rate limit *)

Section RateLimit.

Variable CONFIG : Config.

Lemma startExecution_lastRequestTime now_q now_s r1 r2 text isResume w :
  lastRequestTime (startExecution CONFIG now_q now_s r1 r2 text isResume w)
  = lastRequestTime w.
Proof. break_world w. destruct task, r1, r2; crush; reflexivity. Qed.

Lemma pauseCurrentTask_limit now r1 r2 v w :
  pauseCurrentTask CONFIG now r1 r2 (set_lastRequestTime v w)
  = set_lastRequestTime v (pauseCurrentTask CONFIG now r1 r2 w).
Proof. cases w r1 r2; crush; reflexivity. Qed.

Lemma stopCurrentTask_limit now r1 r2 v w :
  stopCurrentTask CONFIG now r1 r2 (set_lastRequestTime v w)
  = set_lastRequestTime v (stopCurrentTask CONFIG now r1 r2 w).
Proof. cases w r1 r2; crush; reflexivity. Qed.

Lemma resume_limit env announce t v w :
  resume CONFIG env announce t (set_lastRequestTime v w)
  = set_lastRequestTime v (resume CONFIG env announce t w).
Proof.
  break_world w. destruct (tg1 env) eqn:E1, (tg2 env) eqn:E2;
    norm; rewrite ?E1, ?E2; crush; reflexivity.
Qed.

Lemma cmd_cancel_limit v w :
  cmd_cancel (set_lastRequestTime v w) = set_lastRequestTime v (cmd_cancel w).
Proof. break_world w. destruct task, hb, qt, proc; unfold cmd_cancel; crush; reflexivity. Qed.

Lemma cmd_continue_limit env v w :
  cmd_continue CONFIG env (set_lastRequestTime v w)
  = set_lastRequestTime v (cmd_continue CONFIG env w).
Proof.
  unfold cmd_continue.
  change (isUnlocked (clock env 0%nat) (set_lastRequestTime v w))
    with (isUnlocked (clock env 0%nat) w).
  change (currentTask (state (set_lastRequestTime v w))) with (currentTask (state w)).
  destruct (negb (isUnlocked (clock env 0%nat) w)); [reflexivity|].
  destruct (currentTask (state w)) as [t|]; [|reflexivity].
  destruct (negb (TaskStatus_eqb (status t) paused)); [reflexivity|].
  apply resume_limit.
Qed.

Lemma cmd_pause_limit env v w :
  cmd_pause CONFIG env (set_lastRequestTime v w)
  = set_lastRequestTime v (cmd_pause CONFIG env w).
Proof.
  unfold cmd_pause.
  change (is_status running (set_lastRequestTime v w)) with (is_status running w).
  destruct (negb (is_status running w)); [reflexivity|].
  apply pauseCurrentTask_limit.
Qed.

Lemma cmd_stop_limit env v w :
  cmd_stop CONFIG env (set_lastRequestTime v w)
  = set_lastRequestTime v (cmd_stop CONFIG env w).
Proof.
  unfold cmd_stop.
  change (currentTask (state (set_lastRequestTime v w))) with (currentTask (state w)).
  destruct (currentTask (state w)); [|reflexivity].
  rewrite stopCurrentTask_limit. reflexivity.
Qed.

Lemma cmd_status_limit env v w :
  cmd_status CONFIG env (set_lastRequestTime v w)
  = set_lastRequestTime v (cmd_status CONFIG env w).
Proof.
  unfold cmd_status.
  change (currentTask (state (set_lastRequestTime v w))) with (currentTask (state w)).
  destruct (currentTask (state w)); reflexivity.
Qed.

End RateLimit.

(** C10 as stated does not hold: the window is counted from the last
    attempt that passed the check, not from the last attempt, so the third
    attempt, 1500 ms after the second, starts the task. *)
Lemma C10_counterexample :
  trace first_attempt = Reply MUsageRun NoKeyboard :: trace unlocked_world /\
  trace second_attempt = Reply MRateLimited NoKeyboard :: trace first_attempt /\
  104500 - 103000 < RATE_LIMIT_MS /\
  isUnlocked 104500 second_attempt = true /\
  task_status second_attempt = None /\
  task_status third_attempt = Some running /\
  hd_error (trace third_attempt) <> Some (Reply MRateLimited NoKeyboard).
Proof.
  vm_compute. repeat split; try reflexivity. discriminate.
Qed.

(** C10, amended.  With the bot unlocked, a [/run] that comes less than
    3000 ms after the last [/run] that passed the rate check is refused with
    the rate-limit reply and changes nothing else, whether or not a task is
    active; otherwise it passes the check, which records its time, and with
    no active task and a description it starts the task.  A [/run] refused
    as locked does not touch the recorded time.  [/continue], [/pause],
    [/stop], [/cancel] and [/status] neither read nor write it. *)
Theorem C10_run_is_rate_limited :
  forall (cfg : Config) (env : Env) (chat : Z) (text : string) (w : World),
    (isUnlocked (clock env 0%nat) w = true ->
     clock env 1%nat - lastRequestTime w < RATE_LIMIT_MS ->
     cmd_run cfg env chat text w = emit (Reply MRateLimited NoKeyboard) w) /\
    (isUnlocked (clock env 0%nat) w = true ->
     RATE_LIMIT_MS <= clock env 1%nat - lastRequestTime w ->
     lastRequestTime (cmd_run cfg env chat text w) = clock env 1%nat /\
     (active_status w = None -> JS.truthy (command_args text) = true ->
      is_status running (cmd_run cfg env chat text w) = true /\
      count (cmd_run cfg env chat text w) = Some 0)) /\
    (isUnlocked (clock env 0%nat) w = false ->
     cmd_run cfg env chat text w = emit (Reply MLockedUseUnlock NoKeyboard) w) /\
    (forall v,
        cmd_continue cfg env (set_lastRequestTime v w)
        = set_lastRequestTime v (cmd_continue cfg env w) /\
        cmd_pause cfg env (set_lastRequestTime v w)
        = set_lastRequestTime v (cmd_pause cfg env w) /\
        cmd_stop cfg env (set_lastRequestTime v w)
        = set_lastRequestTime v (cmd_stop cfg env w) /\
        cmd_cancel (set_lastRequestTime v w) = set_lastRequestTime v (cmd_cancel w) /\
        cmd_status cfg env (set_lastRequestTime v w)
        = set_lastRequestTime v (cmd_status cfg env w)).
Proof.
  intros cfg env chat text w. split; [|split; [|split]].
  - intros Hu Hlt. unfold cmd_run, rateLimitCheck. rewrite Hu. simpl.
    apply Z.ltb_lt in Hlt. rewrite Hlt. reflexivity.
  - intros Hu Hge. apply Z.ltb_ge in Hge.
    unfold cmd_run, rateLimitCheck. rewrite Hu, Hge. simpl.
    change (active_status (set_lastRequestTime (clock env 1%nat) w)) with (active_status w).
    split.
    + destruct (active_status w); [reflexivity|].
      destruct (negb (JS.truthy (command_args text))); [reflexivity|].
      rewrite startExecution_lastRequestTime. reflexivity.
    + intros Ha Ht. rewrite Ha, Ht. simpl. split.
      * match goal with |- context [startExecution _ ?a ?b ?c ?d ?e ?f ?w4] =>
          apply (startExecution_control cfg a b c d e f w4 _ eq_refl)
        end.
      * match goal with |- context [startExecution _ ?a ?b ?c ?d ?e ?f ?w4] =>
          rewrite (startExecution_count cfg a b c d e f w4 _ eq_refl)
        end.
        reflexivity.
  - intro Hl. unfold cmd_run. rewrite Hl. reflexivity.
  - intro v. repeat split.
    + apply cmd_continue_limit.
    + apply cmd_pause_limit.
    + apply cmd_stop_limit.
    + apply cmd_cancel_limit.
    + apply cmd_status_limit.
Qed.

Lemma C10_witness :
  second_attempt = emit (Reply MRateLimited NoKeyboard) first_attempt.
Proof.
  apply (proj1 (C10_run_is_rate_limited default_config (host 103000) 55
                  "/run write a file" first_attempt)).
  - reflexivity.
  - reflexivity.
Defined.

(* ======================================================================== *)
(** * Further properties of the supervisor *)

(* ------------------------------------------------------------------------ *)
(** ** The state file follows the state *)

Lemma persist_refl (w : World) : persist_change w w.
Proof. left. split; reflexivity. Qed.

Lemma persist_trans (w w1 w2 : World) :
  persist_change w w1 -> persist_change w1 w2 -> persist_change w w2.
Proof.
  intros H1 [[Hs Hf] | H2]; [|right; exact H2].
  destruct H1 as [[Hs1 Hf1] | H1].
  - left. split; congruence.
  - right. unfold saved in *. rewrite Hf, Hs. exact H1.
Qed.

Ltac solve_persist :=
  unfold persist_change, saved; crush;
  first [left; split; reflexivity | right; reflexivity].

Ltac same_file := left; split; reflexivity.

Section Persist.

Variable CONFIG : Config.

Lemma pauseForQuantumTimeout_persist now r1 r2 w :
  persist_change w (pauseForQuantumTimeout CONFIG now r1 r2 w).
Proof. cases w r1 r2; solve_persist. Qed.

Lemma pauseCurrentTask_persist now r1 r2 w :
  persist_change w (pauseCurrentTask CONFIG now r1 r2 w).
Proof. cases w r1 r2; solve_persist. Qed.

Lemma stopCurrentTask_persist now r1 r2 w :
  persist_change w (stopCurrentTask CONFIG now r1 r2 w).
Proof. cases w r1 r2; solve_persist. Qed.

Lemma on_close_persist now r1 r2 code w :
  persist_change w (on_close CONFIG now r1 r2 code w).
Proof. cases w r1 r2; solve_persist. Qed.

Lemma on_error_persist r1 r2 msg w : persist_change w (on_error r1 r2 msg w).
Proof. cases w r1 r2; solve_persist. Qed.

Lemma sendOrEditStatusMessage_persist r1 r2 m kb w :
  persist_change w (sendOrEditStatusMessage r1 r2 m kb w).
Proof. cases w r1 r2; solve_persist. Qed.

Lemma startExecution_persist now_q now_s r1 r2 text isResume w :
  persist_change w (startExecution CONFIG now_q now_s r1 r2 text isResume w).
Proof. cases w r1 r2; solve_persist. Qed.

Lemma cmd_cancel_persist w : persist_change w (cmd_cancel w).
Proof. break_world w. destruct task, hb, qt, proc; unfold cmd_cancel; solve_persist. Qed.

Lemma resume_persist env announce t w :
  persist_change w (resume CONFIG env announce t w).
Proof.
  unfold resume. eapply persist_trans; [|apply startExecution_persist].
  right. reflexivity.
Qed.

Lemma cmd_run_persist env chat text w :
  persist_change w (cmd_run CONFIG env chat text w).
Proof.
  unfold cmd_run.
  destruct (negb (isUnlocked (clock env 0%nat) w)); [same_file|].
  unfold rateLimitCheck.
  destruct (clock env 1%nat - lastRequestTime w <? RATE_LIMIT_MS); simpl; [same_file|].
  destruct (active_status _); [same_file|].
  destruct (negb (JS.truthy (command_args text))); [same_file|].
  eapply persist_trans; [|apply startExecution_persist].
  right. reflexivity.
Qed.

Lemma cmd_continue_persist env w : persist_change w (cmd_continue CONFIG env w).
Proof.
  unfold cmd_continue.
  destruct (negb (isUnlocked (clock env 0%nat) w)); [same_file|].
  destruct (currentTask (state w)) as [t|]; [|same_file].
  destruct (negb (TaskStatus_eqb (status t) paused)); [same_file|].
  apply resume_persist.
Qed.

Lemma cmd_unlock_persist env text w : persist_change w (cmd_unlock CONFIG env text w).
Proof.
  unfold cmd_unlock.
  destruct (negb (JS.truthy (command_args text))); [same_file|].
  destruct (getStoredPassword w) as [pw|]; [|same_file].
  destruct (negb (JS.truthy pw)); [same_file|].
  destruct (String.eqb (command_args text) pw); [right; reflexivity | same_file].
Qed.

Lemma on_callback_query_persist env from data w :
  persist_change w (on_callback_query CONFIG env from data w).
Proof.
  unfold on_callback_query.
  destruct data as [data|]; [|same_file].
  destruct (negb (from =? ALLOWED_USER_ID CONFIG)); [same_file|].
  destruct (String.eqb data "STATUS").
  { destruct (currentTask (state w)); [|same_file].
    eapply persist_trans; [|apply sendOrEditStatusMessage_persist]. same_file. }
  destruct (String.eqb data "LOCK"); [right; reflexivity|].
  destruct (String.eqb data "STOP_PANEL").
  { destruct (currentTask (state w)); [|same_file].
    eapply persist_trans; [|apply stopCurrentTask_persist]. same_file. }
  destruct (String.eqb data "PAUSE").
  { destruct (negb (is_status running w)); [same_file|].
    eapply persist_trans; [|apply pauseCurrentTask_persist]. same_file. }
  destruct (String.prefix "CONTINUE:" data).
  { destruct (negb (isUnlocked (clock env 0%nat) w)); [same_file|].
    destruct (currentTask (state w)) as [t|]; [|same_file].
    destruct (negb (String.eqb (id t) _) || _); [same_file|].
    apply resume_persist. }
  destruct (String.prefix "STOP:" data); [|same_file].
  destruct (currentTask (state w)) as [t|]; [|same_file].
  destruct (negb (String.eqb (id t) _)); [same_file|].
  eapply persist_trans; [|apply stopCurrentTask_persist]. same_file.
Qed.

Lemma handle_persist env from chat u w :
  persist_change w (handle CONFIG env from chat u w).
Proof.
  destruct u; simpl.
  - same_file.
  - apply cmd_unlock_persist.
  - right. reflexivity.
  - apply cmd_run_persist.
  - unfold cmd_status. destruct (currentTask (state w)); same_file.
  - apply cmd_continue_persist.
  - unfold cmd_stop. destruct (currentTask (state w)); [|same_file].
    eapply persist_trans; [apply stopCurrentTask_persist | same_file].
  - apply cmd_cancel_persist.
  - unfold cmd_pause. destruct (negb (is_status running w)); [same_file|].
    apply pauseCurrentTask_persist.
  - apply on_callback_query_persist.
Qed.

Lemma step_persist ev env w : persist_change w (step CONFIG ev env w).
Proof.
  destruct ev as [from priv chat u | p data | p data | p msg | p code | tid | tid | tid];
    simpl.
  - destruct from as [user|]; [|apply persist_refl].
    destruct (isAllowedUser _ _ _); [|apply persist_refl].
    apply handle_persist.
  - destruct (on_stdout_shape data w) as [buf [tr E]]. rewrite E. same_file.
  - destruct (on_stderr_shape data w) as [buf [tr E]]. rewrite E. same_file.
  - apply on_error_persist.
  - eapply persist_trans; [|apply on_close_persist]. same_file.
  - unfold on_heartbeat. destruct (currentTask (state w)) as [t|]; [|apply persist_refl].
    destruct (TaskStatus_eqb (status t) running); [|apply persist_refl].
    apply sendOrEditStatusMessage_persist.
  - eapply persist_trans; [|apply pauseForQuantumTimeout_persist]. same_file.
  - eapply persist_trans with (w1 := clearTimer tid Notify w); [same_file|].
    break_world w. destruct task; unfold on_restart_notice; unfold persist_change, saved; norm;
      [|left; split; reflexivity].
    destruct (tg1 env); first [left; split; reflexivity | right; reflexivity].
Qed.

End Persist.

Lemma interrupted_idle (st : AppState) :
  (forall t, currentTask st = Some t -> status t <> running) -> interrupted st = st.
Proof.
  intro H. destruct st as [u [t|]]; unfold interrupted; simpl; [|reflexivity].
  specialize (H t eq_refl).
  destruct (TaskStatus_eqb (status t) running) eqn:E; [|reflexivity].
  apply TaskStatus_eqb_eq in E. contradiction.
Qed.

Lemma main_state (file : FileContent) (secret : option string) :
  state (main file secret) = state (loadState (initial file secret)).
Proof.
  unfold main.
  set (w := loadState (initial file secret)).
  destruct (secretFile w); destruct (is_status paused _); reflexivity.
Qed.

Lemma main_stateFile (file : FileContent) (secret : option string) :
  stateFile (main file secret) = stateFile (loadState (initial file secret)).
Proof.
  unfold main.
  set (w := loadState (initial file secret)).
  destruct (secretFile w); destruct (is_status paused _); reflexivity.
Qed.

(** Loading a saved state gives it back, a running task paused. *)
Lemma saved_recoverable (w : World) : saved w -> recoverable w.
Proof.
  intros H secret. rewrite main_state. unfold loadState. simpl. rewrite H.
  destruct (state w) as [u [t|]]; unfold interrupted, spread; simpl; [|reflexivity].
  destruct (TaskStatus_eqb (status t) running); reflexivity.
Qed.

Lemma loadState_cases (w : World) (loaded : PartialAppState) :
  stateFile w = Json loaded ->
  (exists t,
      currentTask (spread (state w) loaded) = Some t /\ status t = running /\
      loadState w
      = saveState (set_currentTask (Some (set_status paused t))
                     (set_state (spread (state w) loaded) w)))
  \/ ((forall t, currentTask (spread (state w) loaded) = Some t -> status t <> running) /\
      loadState w = set_state (spread (state w) loaded) w).
Proof.
  intro Hf. unfold loadState. rewrite Hf.
  change (currentTask (state (set_state (spread (state w) loaded) w)))
    with (currentTask (spread (state w) loaded)).
  destruct (currentTask (spread (state w) loaded)) as [t|].
  - destruct (TaskStatus_eqb (status t) running) eqn:E.
    + left. exists t. apply TaskStatus_eqb_eq in E. repeat split. exact E.
    + right. split; [|reflexivity].
      intros t' Ht' R. injection Ht' as <-. rewrite R in E. discriminate.
  - right. split; [discriminate | reflexivity].
Qed.

Lemma main_recoverable (file : FileContent) (secret : option string) :
  recoverable (main file secret).
Proof.
  intro secret'. rewrite !main_state, main_stateFile.
  destruct file as [| |loaded]; try reflexivity.
  destruct (loadState_cases (initial (Json loaded) secret) loaded eq_refl)
    as [(t & Ht & Hr & E) | (Hn & E)]; rewrite E.
  - rewrite <- main_state. apply saved_recoverable. reflexivity.
  - change (stateFile (set_state _ (initial (Json loaded) secret))) with (Json loaded).
    change (state (set_state (spread (state (initial (Json loaded) secret)) loaded)
                     (initial (Json loaded) secret)))
      with (spread (state (initial (Json loaded) secret)) loaded).
    destruct (loadState_cases (initial (Json loaded) secret') loaded eq_refl)
      as [(t & Ht & Hr & E') | (_ & E')]; rewrite E'.
    + exfalso. apply (Hn t Ht Hr).
    + symmetry. apply interrupted_idle. exact Hn.
Qed.

Lemma Reachable_recoverable (cfg : Config) (w : World) :
  Reachable cfg w -> recoverable w.
Proof.
  induction 1 as [file secret | w ev env _ IH _].
  - apply main_recoverable.
  - destruct (step_persist cfg ev env w) as [[Hs Hf] | H].
    + intro secret. rewrite Hf, Hs. apply IH.
    + apply saved_recoverable. exact H.
Qed.

(* ------------------------------------------------------------------------ *)
(** ** Handlers that start no child and keep what [/run] fixed *)

Lemma identity_kept_refl (w : World) : identity_kept w w.
Proof. left. reflexivity. Qed.

Lemma identity_kept_trans (w w1 w2 : World) :
  identity_kept w w1 -> identity_kept w1 w2 -> identity_kept w w2.
Proof.
  intros H1 [H2 | H2]; [|right; exact H2].
  destruct H1 as [H1 | H1].
  - left. congruence.
  - right. rewrite H1 in H2. destruct (currentTask (state w2)); [discriminate | reflexivity].
Qed.

Lemma no_spawn_refl (w : World) : no_spawn w w.
Proof. split; [reflexivity | intros e H _; exact H]. Qed.

Lemma no_spawn_trans (w w1 w2 : World) :
  no_spawn w w1 -> no_spawn w1 w2 -> no_spawn w w2.
Proof.
  intros [N1 T1] [N2 T2]. split; [congruence|].
  intros e H Hs. apply T1; [apply T2; assumption | exact Hs].
Qed.

Lemma quiet_refl (w : World) : quiet w w.
Proof. split; [apply identity_kept_refl | apply no_spawn_refl]. Qed.

Lemma quiet_trans (w w1 w2 : World) : quiet w w1 -> quiet w1 w2 -> quiet w w2.
Proof.
  intros [I1 S1] [I2 S2].
  split; [eapply identity_kept_trans | eapply no_spawn_trans]; eassumption.
Qed.

(** The new effects are listed: none of them is a [Spawn]. *)
Ltac old_spawn :=
  let e := fresh "e" in
  let Hin := fresh "Hin" in
  let Hs := fresh "Hs" in
  intros e Hin Hs; simpl in Hin;
  repeat (destruct Hin as [Hin | Hin]; [subst e; discriminate Hs|]);
  exact Hin.

Ltac solve_quiet :=
  unfold quiet, identity_kept, no_spawn; crush;
  (split; [first [left; reflexivity | right; reflexivity] | split; [reflexivity | old_spawn]]).

Ltac hush := solve [apply quiet_refl | solve_quiet].

Lemma quiet_emit (e : Effect) (w : World) : is_spawn e = false -> quiet w (emit e w).
Proof.
  intro H. split; [left; reflexivity | split; [reflexivity|]].
  intros e' [<- | Hin] Hs; [congruence | exact Hin].
Qed.

Section Quiet.

Variable CONFIG : Config.

Lemma pauseForQuantumTimeout_quiet now r1 r2 w :
  quiet w (pauseForQuantumTimeout CONFIG now r1 r2 w).
Proof. cases w r1 r2; solve_quiet. Qed.

Lemma pauseCurrentTask_quiet now r1 r2 w :
  quiet w (pauseCurrentTask CONFIG now r1 r2 w).
Proof. cases w r1 r2; solve_quiet. Qed.

Lemma stopCurrentTask_quiet now r1 r2 w :
  quiet w (stopCurrentTask CONFIG now r1 r2 w).
Proof. cases w r1 r2; solve_quiet. Qed.

Lemma on_close_quiet now r1 r2 code w :
  quiet w (on_close CONFIG now r1 r2 code w).
Proof. cases w r1 r2; solve_quiet. Qed.

Lemma on_error_quiet r1 r2 msg w : quiet w (on_error r1 r2 msg w).
Proof. cases w r1 r2; solve_quiet. Qed.

Lemma sendOrEditStatusMessage_quiet r1 r2 m kb w :
  quiet w (sendOrEditStatusMessage r1 r2 m kb w).
Proof. cases w r1 r2; solve_quiet. Qed.

Lemma cmd_cancel_quiet w : quiet w (cmd_cancel w).
Proof. break_world w. destruct task, hb, qt, proc; unfold cmd_cancel; solve_quiet. Qed.

Lemma fold_lines_quiet (f : string -> string) (lines : list string) (w : World) :
  quiet w (fold_left (fun acc line =>
                        if JS.truthy line then appendToLog (f line) (push (f line) acc)
                        else acc) lines w).
Proof.
  revert w. induction lines as [|l lines IH]; intro w; simpl; [apply quiet_refl|].
  destruct (JS.truthy l); [|apply IH].
  eapply quiet_trans; [|apply IH].
  break_world w. destruct task; unfold appendToLog; solve_quiet.
Qed.

Lemma on_stdout_quiet data w : quiet w (on_stdout data w).
Proof.
  unfold on_stdout.
  set (w1 := fold_left _ _ w).
  assert (H : quiet w w1) by apply fold_lines_quiet with (f := fun l => l).
  destruct (1000 <? _); [|exact H].
  eapply quiet_trans; [exact H|].
  split; [left; reflexivity | split; [reflexivity | intros e Hin _; exact Hin]].
Qed.

Lemma on_stderr_quiet data w : quiet w (on_stderr data w).
Proof. apply fold_lines_quiet with (f := fun l => "[ERR] " ++ l). Qed.

Lemma cmd_unlock_quiet env text w : quiet w (cmd_unlock CONFIG env text w).
Proof.
  unfold cmd_unlock.
  destruct (negb (JS.truthy (command_args text))); [hush|].
  destruct (getStoredPassword w) as [pw|]; [|hush].
  destruct (negb (JS.truthy pw)); [hush|].
  destruct (String.eqb (command_args text) pw); hush.
Qed.

Lemma on_heartbeat_quiet env w : quiet w (on_heartbeat CONFIG env w).
Proof.
  unfold on_heartbeat. destruct (currentTask (state w)) as [t|]; [|apply quiet_refl].
  destruct (TaskStatus_eqb (status t) running); [|apply quiet_refl].
  apply sendOrEditStatusMessage_quiet.
Qed.

Lemma on_restart_notice_quiet env w : quiet w (on_restart_notice CONFIG env w).
Proof.
  break_world w. destruct task; unfold on_restart_notice; [|apply quiet_refl].
  destruct (tg1 env) eqn:E; norm; rewrite ?E; solve_quiet.
Qed.

End Quiet.

Ltac split_andb :=
  repeat match goal with
         | H : _ && _ = true |- _ => apply andb_true_iff in H; destruct H
         end.

Section QuietSteps.

Variable CONFIG : Config.

Lemma startExecution_spawns now_q now_s r1 r2 text isResume w t :
  currentTask (state w) = Some t ->
  let w' := startExecution CONFIG now_q now_s r1 r2 text isResume w in
  let task := set_quantumStartedAt now_q (set_status running t) in
  nextPid w' = S (nextPid w) /\
  currentProcess w' = Some (nextPid w) /\
  children w' = nextPid w :: children w /\
  outputBuffer w' = [] /\
  lastRequestTime w' = lastRequestTime w /\
  unlockedUntil (state w') = unlockedUntil (state w) /\
  (exists t', currentTask (state w') = Some t' /\ core t' = core task) /\
  In (Spawn (nextPid w)
        (fullCommand (if isResume then buildContinuationPrompt CONFIG task else text))
        (WORKDIR CONFIG)) (trace w') /\
  (forall e, In e (trace w') -> is_kill e = true -> In e (trace w)).
Proof.
  intros Ht w' task0. subst w' task0. break_world w. simpl in Ht. subst task.
  destruct r1, r2; crush;
    (repeat (split; [reflexivity|]));
    (split; [eexists; split; reflexivity|]);
    (split; [simpl; repeat (first [left; reflexivity | right])|]);
    intros e Hin Hk; simpl in Hin;
    repeat (destruct Hin as [Hin | Hin]; [subst e; discriminate Hk|]); exact Hin.
Qed.

Lemma resume_identity env announce t w :
  currentTask (state w) = Some t ->
  identity_kept w (resume CONFIG env announce t w).
Proof.
  intro Ht. unfold resume.
  match goal with |- identity_kept _ (startExecution _ ?a ?b ?c ?d ?e ?f ?w4) =>
    destruct (startExecution_spawns a b c d e f w4 _ eq_refl)
      as (_ & _ & _ & _ & _ & _ & (t' & Ht' & Hc) & _)
  end.
  left. rewrite Ht', Ht. simpl. unfold core in Hc. simpl in Hc.
  injection Hc as I1 I2 I3 I4 I5 I6 I7 I8 I9. unfold identity. congruence.
Qed.

Lemma cmd_run_quiet env chat text w :
  run_accepted env text w = false -> quiet w (cmd_run CONFIG env chat text w).
Proof.
  unfold run_accepted, cmd_run, rateLimitCheck.
  destruct (isUnlocked (clock env 0%nat) w); simpl; [|intros _; hush].
  destruct (clock env 1%nat - lastRequestTime w <? RATE_LIMIT_MS); simpl; [intros _; hush|].
  change (active_status (set_lastRequestTime (clock env 1%nat) w)) with (active_status w).
  destruct (active_status w); simpl; [intros _; hush|].
  destruct (JS.truthy (command_args text)); simpl; [discriminate | intros _; hush].
Qed.

Lemma cmd_continue_quiet env w :
  continue_accepted env w = false -> quiet w (cmd_continue CONFIG env w).
Proof.
  unfold continue_accepted, cmd_continue, is_status.
  destruct (isUnlocked (clock env 0%nat) w); simpl; [|intros _; hush].
  destruct (currentTask (state w)) as [t|]; [|intros _; hush].
  destruct (TaskStatus_eqb (status t) paused); simpl; [discriminate | intros _; hush].
Qed.

Lemma emit_then_quiet (e : Effect) (w w' : World) :
  is_spawn e = false -> quiet (emit e w) w' -> quiet w w'.
Proof. intros H Q. eapply quiet_trans; [apply quiet_emit; exact H | exact Q]. Qed.

Lemma on_callback_query_quiet env from data w :
  button_accepted CONFIG env from data w = false ->
  quiet w (on_callback_query CONFIG env from (Some data) w).
Proof.
  unfold button_accepted, on_callback_query.
  destruct (from =? ALLOWED_USER_ID CONFIG); simpl; [|intros _; hush].
  destruct (String.eqb data "STATUS"); simpl.
  { intros _. destruct (currentTask (state w)); [|hush].
    eapply emit_then_quiet; [|apply sendOrEditStatusMessage_quiet]; reflexivity. }
  destruct (String.eqb data "LOCK"); simpl; [intros _; hush|].
  destruct (String.eqb data "STOP_PANEL"); simpl.
  { intros _. destruct (currentTask (state w)); [|hush].
    eapply emit_then_quiet; [|apply stopCurrentTask_quiet]; reflexivity. }
  destruct (String.eqb data "PAUSE"); simpl.
  { intros _. destruct (negb (is_status running w)); [hush|].
    eapply emit_then_quiet; [|apply pauseCurrentTask_quiet]; reflexivity. }
  destruct (String.prefix "CONTINUE:" data); simpl.
  { destruct (isUnlocked (clock env 0%nat) w); simpl; [|intros _; hush].
    destruct (currentTask (state w)) as [t|]; [|intros _; hush].
    destruct (String.eqb (id t) _); simpl; [|intros _; hush].
    destruct (TaskStatus_eqb (status t) paused); simpl; [discriminate | intros _; hush]. }
  intros _. destruct (String.prefix "STOP:" data); [|hush].
  destruct (currentTask (state w)) as [t|]; [|hush].
  destruct (negb (String.eqb (id t) _)); [hush|].
  eapply emit_then_quiet; [|apply stopCurrentTask_quiet]; reflexivity.
Qed.

(** An event that is neither an accepted [/run] nor an accepted continue
    starts no child and keeps what [/run] fixed. *)
Lemma step_quiet ev env w :
  starts CONFIG ev env w = false -> resumes CONFIG ev env w = false ->
  quiet w (step CONFIG ev env w).
Proof.
  destruct ev as [from priv chat u | p data | p data | p msg | p code | tid | tid | tid];
    cbn [step starts resumes]; intros Hs Hr.
  - destruct from as [user|]; [|apply quiet_refl].
    destruct (isAllowedUser (ALLOWED_USER_ID CONFIG) (Some user) priv) eqn:Ea;
      [|apply quiet_refl].
    destruct u as [|text| |text| | | | | |[data|]]; cbn [handle andb] in *.
    + hush.
    + apply cmd_unlock_quiet.
    + hush.
    + apply cmd_run_quiet. exact Hs.
    + unfold cmd_status. destruct (currentTask (state w)); hush.
    + apply cmd_continue_quiet. exact Hr.
    + unfold cmd_stop. destruct (currentTask (state w)); [|hush].
      eapply quiet_trans; [apply stopCurrentTask_quiet | apply quiet_emit; reflexivity].
    + apply cmd_cancel_quiet.
    + unfold cmd_pause. destruct (negb (is_status running w)); [hush|].
      apply pauseCurrentTask_quiet.
    + apply on_callback_query_quiet. exact Hr.
    + apply quiet_refl.
  - apply on_stdout_quiet.
  - apply on_stderr_quiet.
  - apply on_error_quiet.
  - eapply quiet_trans; [|apply on_close_quiet]. hush.
  - apply on_heartbeat_quiet.
  - eapply quiet_trans; [|apply pauseForQuantumTimeout_quiet]. hush.
  - eapply quiet_trans; [|apply on_restart_notice_quiet]. hush.
Qed.

(** An accepted [/run] or continue starts the child the runtime hands out
    next. *)
Lemma step_spawns ev env w :
  starts CONFIG ev env w || resumes CONFIG ev env w = true ->
  nextPid (step CONFIG ev env w) = S (nextPid w) /\
  currentProcess (step CONFIG ev env w) = Some (nextPid w) /\
  exists command,
    In (Spawn (nextPid w) command (WORKDIR CONFIG)) (trace (step CONFIG ev env w)).
Proof.
  destruct ev as [from priv chat u | p data | p data | p msg | p code | tid | tid | tid];
    cbn [step starts resumes orb]; try discriminate.
  destruct from as [user|];
    [|destruct u as [| | | | | | | | |[d|]]; cbn [isAllowedUser andb orb]; discriminate].
  destruct (isAllowedUser (ALLOWED_USER_ID CONFIG) (Some user) priv) eqn:Ea;
    [|destruct u as [| | | | | | | | |[d|]]; cbn [andb orb]; discriminate].
  destruct u as [|text| |text| | | | | |[data|]]; cbn [handle andb orb]; try discriminate.
  - rewrite orb_false_r. unfold run_accepted, cmd_run, rateLimitCheck.
    destruct (isUnlocked (clock env 0%nat) w); simpl; [|discriminate].
    destruct (clock env 1%nat - lastRequestTime w <? RATE_LIMIT_MS); simpl; [discriminate|].
    change (active_status (set_lastRequestTime (clock env 1%nat) w)) with (active_status w).
    destruct (active_status w); simpl; [discriminate|].
    destruct (JS.truthy (command_args text)); simpl; [intros _|discriminate].
    match goal with |- context [startExecution _ ?a ?b ?c ?d ?e ?f ?w4] =>
      destruct (startExecution_spawns a b c d e f w4 _ eq_refl)
        as (H1 & H2 & _ & _ & _ & _ & _ & H3 & _)
    end.
    split; [exact H1 | split; [exact H2 | eexists; exact H3]].
  - unfold continue_accepted, cmd_continue, is_status.
    destruct (isUnlocked (clock env 0%nat) w); simpl; [|discriminate].
    destruct (currentTask (state w)) as [t|]; [|discriminate].
    destruct (TaskStatus_eqb (status t) paused); simpl; [intros _|discriminate].
    unfold resume.
    match goal with |- context [startExecution _ ?a ?b ?c ?d ?e ?f ?w4] =>
      destruct (startExecution_spawns a b c d e f w4 _ eq_refl)
        as (H1 & H2 & _ & _ & _ & _ & _ & H3 & _)
    end.
    split; [exact H1 | split; [exact H2 | eexists; exact H3]].
  - unfold button_accepted, on_callback_query.
    destruct (user =? ALLOWED_USER_ID CONFIG); simpl; [|discriminate].
    destruct (String.eqb data "STATUS"); simpl; [discriminate|].
    destruct (String.eqb data "LOCK"); simpl; [discriminate|].
    destruct (String.eqb data "STOP_PANEL"); simpl; [discriminate|].
    destruct (String.eqb data "PAUSE"); simpl; [discriminate|].
    destruct (String.prefix "CONTINUE:" data); simpl; [|discriminate].
    destruct (isUnlocked (clock env 0%nat) w); simpl; [|discriminate].
    destruct (currentTask (state w)) as [t|]; [|discriminate].
    destruct (String.eqb (id t) _); simpl; [|discriminate].
    destruct (TaskStatus_eqb (status t) paused); simpl; [intros _|discriminate].
    unfold resume.
    match goal with |- context [startExecution _ ?a ?b ?c ?d ?e ?f ?w4] =>
      destruct (startExecution_spawns a b c d e f w4 _ eq_refl)
        as (H1 & H2 & _ & _ & _ & _ & _ & H3 & _)
    end.
    split; [exact H1 | split; [exact H2 | eexists; exact H3]].
Qed.

(** Who can make the bot start a child. *)
Lemma accepted_is_authorised ev env w :
  starts CONFIG ev env w || resumes CONFIG ev env w = true ->
  exists chat u,
    ev = Telegram (Some (ALLOWED_USER_ID CONFIG)) true chat u /\
    isUnlocked (clock env 0%nat) w = true.
Proof.
  intro H.
  assert (A : exists from priv chat u,
             ev = Telegram from priv chat u /\
             isAllowedUser (ALLOWED_USER_ID CONFIG) from priv = true /\
             isUnlocked (clock env 0%nat) w = true).
  { apply orb_true_iff in H. destruct H as [H | H].
    - destruct ev as [from priv chat u | | | | | | |]; try discriminate H.
      destruct u; try discriminate H. cbn [starts] in H. unfold run_accepted in H.
      split_andb.
      exists from, priv, chat, (Run text). repeat split; assumption.
    - destruct ev as [from priv chat u | | | | | | |]; try discriminate H.
      destruct u as [| | | | | | | | |[data|]]; try (destruct from; discriminate H).
      + destruct from as [user|]; cbn [resumes isAllowedUser andb] in H; [|discriminate H].
        unfold continue_accepted in H. split_andb.
        exists (Some user), priv, chat, Continue.
        repeat split; [simpl; apply andb_true_iff; split|]; assumption.
      + destruct from as [user|]; [|discriminate H].
        cbn [resumes] in H. unfold button_accepted in H.
        split_andb.
        exists (Some user), priv, chat, (CallbackQuery (Some data)).
        repeat split; assumption. }
  destruct A as (from & priv & chat & u & -> & A & U).
  exists chat, u. split; [|exact U].
  destruct from as [user|]; [|discriminate A].
  simpl in A. apply andb_true_iff in A. destruct A as [A1 A2].
  apply Z.eqb_eq in A1. subst. reflexivity.
Qed.

Lemma run_events_identity evs w :
  started CONFIG evs w = false -> identity_kept w (run_events CONFIG evs w).
Proof.
  revert w. induction evs as [|[ev env] evs IH]; intros w Hs; simpl in *;
    [apply identity_kept_refl|].
  apply orb_false_iff in Hs. destruct Hs as [Hs1 Hs2].
  eapply identity_kept_trans; [|apply IH; exact Hs2].
  destruct (resumes CONFIG ev env w) eqn:Er; [|apply step_quiet; assumption].
  (* a successful continue *)
  destruct ev as [from priv chat u | p data | p data | p msg | p code | tid | tid | tid];
    cbn [resumes] in Er; try discriminate Er.
  destruct from as [user|];
    [|destruct u as [| | | | | | | | |[d|]]; cbn [isAllowedUser andb] in Er; discriminate Er].
  cbn [step].
  destruct (isAllowedUser (ALLOWED_USER_ID CONFIG) (Some user) priv) eqn:Ea;
    [|destruct u as [| | | | | | | | |[d|]]; cbn [andb] in Er; discriminate Er].
  destruct u as [|text| |text| | | | | |[data|]]; cbn [handle andb] in *; try discriminate Er.
  - unfold continue_accepted, is_status in Er. unfold cmd_continue.
    destruct (isUnlocked (clock env 0%nat) w); simpl in *; [|discriminate Er].
    destruct (currentTask (state w)) as [t|] eqn:Et; [|discriminate Er].
    rewrite Er. simpl. apply resume_identity. exact Et.
  - unfold button_accepted in Er. unfold on_callback_query.
    destruct (user =? ALLOWED_USER_ID CONFIG); simpl in *; [|discriminate Er].
    destruct (String.eqb data "STATUS"); simpl in *; [discriminate Er|].
    destruct (String.eqb data "LOCK"); simpl in *; [discriminate Er|].
    destruct (String.eqb data "STOP_PANEL"); simpl in *; [discriminate Er|].
    destruct (String.eqb data "PAUSE"); simpl in *; [discriminate Er|].
    destruct (String.prefix "CONTINUE:" data); simpl in *; [|discriminate Er].
    destruct (isUnlocked (clock env 0%nat) w); simpl in *; [|discriminate Er].
    destruct (currentTask (state w)) as [t|] eqn:Et; [|discriminate Er].
    apply andb_true_iff in Er. destruct Er as [E1 E2]. rewrite E1, E2. simpl.
    apply resume_identity. exact Et.
Qed.

End QuietSteps.

(* ------------------------------------------------------------------------ *)
(** ** What a handler does to the burst *)





Ltac solve_bc :=
  crush;
  first [ solve [apply bc_kept; reflexivity]
        | solve [apply bc_ended; norm;
                 first [reflexivity | assumption | apply exit_status_not_running]] ].

Section Burst.

Variable CONFIG : Config.



Lemma stopCurrentTask_bc now r1 r2 w w0 :
  burst_change w0 (stopCurrentTask CONFIG now r1 r2 w).
Proof. cases w r1 r2; crush; apply bc_ended; reflexivity. Qed.

























End Burst.

(* ------------------------------------------------------------------------ *)
(** ** What a handler does to the gate *)


Section GateKept.

Variable CONFIG : Config.















(** What [/unlock] does to the gate. *)
Lemma cmd_unlock_gate env text w :
  let w' := cmd_unlock CONFIG env text w in
  (getStoredPassword w = Some (command_args text) /\
   JS.truthy (command_args text) = true /\
   unlockedUntil (state w') = clock env 0%nat + UNLOCK_TTL_MIN CONFIG * 60 * 1000 /\
   currentTask (state w') = currentTask (state w) /\
   saved w' /\
   trace w' = DeleteMessage :: Reply (MUnlocked (UNLOCK_TTL_MIN CONFIG)) NoKeyboard :: trace w)
  \/ (machine w' = machine w /\
      (getStoredPassword w <> Some (command_args text)
       \/ JS.truthy (command_args text) = false)).
Proof.
  unfold cmd_unlock.
  destruct (JS.truthy (command_args text)) eqn:Ea; simpl;
    [|right; split; [reflexivity | right; reflexivity]].
  destruct (getStoredPassword w) as [pw|] eqn:Ep;
    [|right; split; [reflexivity | left; discriminate]].
  destruct (JS.truthy pw) eqn:Et; simpl.
  - destruct (String.eqb (command_args text) pw) eqn:E.
    + apply String.eqb_eq in E. subst pw. left. repeat split.
    + right. split; [reflexivity|]. left. intro X. injection X as X.
      apply String.eqb_neq in E. apply E. symmetry. exact X.
  - right. split; [reflexivity|]. left. intro X. injection X as X. subst pw.
    rewrite Ea in Et. discriminate.
Qed.


End GateKept.

(* ------------------------------------------------------------------------ *)
(** ** The timer of the restart notice *)

Lemma cc_notify (w w' : World) (t : TimerId) :
  control_change w w' -> In (t, Notify) (timers w') -> In (t, Notify) (timers w).
Proof.
  intros H Hin. destruct H as [_ _ _ Ht _ | Ht _ _ _ _ | _ Ht _ _ _ _].
  - apply Ht. exact Hin.
  - apply Ht in Hin. apply In_stopTimers in Hin. apply Hin.
  - rewrite Ht in Hin. destruct Hin as [E | [E | Hin]]; [discriminate E | discriminate E |].
    exact Hin.
Qed.

Lemma main_timers (file : FileContent) (secret : option string) :
  timers (main file secret)
  = if is_status paused (main file secret) then [(0%nat, Notify)] else [].
Proof.
  destruct (loadState_control (initial file secret)) as (Lt & _ & _ & Ln).
  simpl in Lt, Ln.
  unfold main. set (w := loadState (initial file secret)) in *.
  assert (G : forall w1, timers w1 = [] -> nextTimer w1 = 0%nat ->
     timers (if is_status paused w1 then snd (setTimer Notify w1) else w1)
     = if is_status paused (if is_status paused w1 then snd (setTimer Notify w1) else w1)
       then [(0%nat, Notify)] else []).
  { intros w1 E1 E2. destruct (is_status paused w1) eqn:Ep.
    - change (is_status paused (snd (setTimer Notify w1))) with (is_status paused w1).
      rewrite Ep. simpl. rewrite E1, E2. reflexivity.
    - rewrite Ep. exact E1. }
  destruct (secretFile w); apply G; assumption.
Qed.

Section Notice.

Variable CONFIG : Config.

Lemma step_notify ev env w t :
  In (t, Notify) (timers (step CONFIG ev env w)) -> In (t, Notify) (timers w).
Proof.
  destruct ev as [from priv chat u | p data | p data | p msg | p code | t0 | t0 | t0]; simpl.
  - destruct from as [user|]; [|exact (fun H => H)].
    destruct (isAllowedUser _ _ _); [|exact (fun H => H)].
    apply cc_notify. apply handle_cc.
  - destruct (on_stdout_shape data w) as [buf [tr E]]. rewrite E. exact (fun H => H).
  - destruct (on_stderr_shape data w) as [buf [tr E]]. rewrite E. exact (fun H => H).
  - apply cc_notify. apply on_error_cc.
  - intro H. eapply cc_notify in H; [|apply on_close_cc]. exact H.
  - apply cc_notify. apply on_heartbeat_cc.
  - intro H. eapply cc_notify in H; [|apply pauseForQuantumTimeout_cc].
    eapply cc_notify in H; [exact H | apply clearTimer_cc].
  - intro H. eapply cc_notify in H; [|apply on_restart_notice_cc].
    eapply cc_notify in H; [exact H | apply clearTimer_cc].
Qed.

Lemma Reachable_notify (w : World) (t : TimerId) :
  Reachable CONFIG w -> In (t, Notify) (timers w) -> t = 0%nat.
Proof.
  induction 1 as [file secret | w ev env _ IH _]; intro Hin.
  - rewrite main_timers in Hin. destruct (is_status paused _); simpl in Hin.
    + destruct Hin as [E | []]. injection E as <-. reflexivity.
    + destruct Hin.
  - apply IH. eapply step_notify. exact Hin.
Qed.

End Notice.

(* ------------------------------------------------------------------------ *)
(** ** The loop over the lines of a chunk, in closed form *)

Lemma fold_lines_spec (f : string -> string) (lines : list string) (w : World) :
  fold_left (fun acc line =>
               if JS.truthy line then appendToLog (f line) (push (f line) acc) else acc)
            lines w
  = set_trace
      (match currentTask (state w) with
       | Some t => rev (map (fun l => AppendLog (logFilePath t) (f l))
                            (filter JS.truthy lines)) ++ trace w
       | None => trace w
       end)%list
      (set_outputBuffer (outputBuffer w ++ map f (filter JS.truthy lines))%list w).
Proof.
  revert w. induction lines as [|l lines IH]; intro w; simpl.
  - break_world w. simpl. rewrite app_nil_r. destruct task; reflexivity.
  - destruct (JS.truthy l); [|apply IH].
    rewrite IH. break_world w. unfold appendToLog, push, emit. simpl.
    destruct task; simpl; rewrite <- !app_assoc; reflexivity.
Qed.

(* ------------------------------------------------------------------------ *)
(** ** Handlers up to the trace *)

Lemma machine_emit (e : Effect) (w : World) : machine (emit e w) = machine w.
Proof. reflexivity. Qed.

Lemma machine_saveState (w w0 : World) :
  machine w = machine w0 -> machine (saveState w) = machine (saveState w0).
Proof.
  intro H. break_world w. break_world w0. unfold machine in *. simpl in *.
  injection H as -> -> -> -> -> -> -> -> -> -> -> -> ->. reflexivity.
Qed.


Section Machine.

Variable CONFIG : Config.





Lemma stop_is_cancel now r1 r2 w t :
  currentTask (state w) = Some t ->
  machine (stopCurrentTask CONFIG now r1 r2 w) = machine (cmd_cancel w).
Proof.
  intro Ht. unfold cmd_cancel. rewrite Ht. break_world w. simpl in Ht. subst task.
  destruct hb, qt, proc, r1, r2; unfold machine; crush; reflexivity.
Qed.

End Machine.

(* ------------------------------------------------------------------------ *)
(** ** Lengths of slices of strings *)




(* ------------------------------------------------------------------------ *)
(** ** [split] and [join] *)






(* ------------------------------------------------------------------------ *)
(** ** The shell reads the quoted prompt back *)

Lemma dequote_escaped (s : string) :
  Bash.dequote true (JS.escape_quotes s ++ "'") = Some s.
Proof.
  induction s as [|c s IH]; [reflexivity|].
  simpl. destruct (Ascii.eqb c JS.quote) eqn:E.
  - apply Ascii.eqb_eq in E. subst c. simpl.
    rewrite IH. reflexivity.
  - simpl. rewrite E. rewrite IH. reflexivity.
Qed.

(* ------------------------------------------------------------------------ *)
(** ** Durability *)

(** X1. At every point of a run the state file is up to date: a restart
    from the file as it is then finds the gate and the task of that moment,
    a running task read as paused. *)
Theorem X1_restart_finds_the_last_state :
  forall (cfg : Config) (w : World),
    Reachable cfg w ->
    forall secret, state (main (stateFile w) secret) = interrupted (state w).
Proof. intros cfg w H. exact (Reachable_recoverable cfg w H). Qed.

Lemma X1_witness :
  state (main (stateFile running_world) None) = interrupted (state running_world).
Proof.
  exact (X1_restart_finds_the_last_state default_config running_world
           running_world_reachable None).
Defined.




(* ------------------------------------------------------------------------ *)
(** ** The running task *)



(** X4. A turn of the event loop starts a child only for an update of the
    allowed user in a private chat while the gate is open; the child is then
    the one held in [currentProcess].  Every other turn gives out no process
    and records no new [Spawn]. *)
Theorem X4_only_the_unlocked_operator_starts_a_child :
  forall (cfg : Config) (ev : Event) (env : Env) (w : World),
    let w' := step cfg ev env w in
    (nextPid w' <> nextPid w \/
     exists e, In e (trace w') /\ is_spawn e = true /\ ~ In e (trace w)) ->
    (exists chat u, ev = Telegram (Some (ALLOWED_USER_ID cfg)) true chat u) /\
    isUnlocked (clock env 0%nat) w = true /\
    nextPid w' = S (nextPid w) /\
    currentProcess w' = Some (nextPid w).
Proof.
  intros cfg ev env w w' H. subst w'.
  destruct (starts cfg ev env w || resumes cfg ev env w) eqn:E.
  - destruct (accepted_is_authorised cfg ev env w E) as (chat & u & Hev & Hu).
    destruct (step_spawns cfg ev env w E) as (N & P & _).
    split; [exists chat, u; exact Hev|]. repeat split; assumption.
  - apply orb_false_iff in E. destruct E as [Es Er].
    destruct (step_quiet cfg ev env w Es Er) as (_ & N & T).
    exfalso. destruct H as [H | (e & Hin & Hs & Hnew)].
    + apply H. exact N.
    + apply Hnew. apply T; assumption.
Qed.

Lemma X4_witness :
  isUnlocked (clock (host 101000) 0%nat) unlocked_world = true /\
  currentProcess
    (step default_config (operator (Run "/run write a file")) (host 101000) unlocked_world)
  = Some (nextPid unlocked_world).
Proof.
  assert (H : nextPid (step default_config (operator (Run "/run write a file"))
                         (host 101000) unlocked_world)
              <> nextPid unlocked_world).
  { intro X. vm_compute in X. discriminate X. }
  destruct (X4_only_the_unlocked_operator_starts_a_child default_config
              (operator (Run "/run write a file")) (host 101000) unlocked_world
              (or_introl H)) as (_ & A & _ & B).
  split; [exact A | exact B].
Defined.




(* ------------------------------------------------------------------------ *)
(** ** The gate *)





(* ------------------------------------------------------------------------ *)
(** ** What [/run] fixes *)

(** X8. As long as no [/run] is accepted, a run of events never changes the
    identifier, the text, the start time, the chat or the log file of the
    task: pauses, continues, expiries, output and closes keep them, and the
    only other outcome is that there is no task any more. *)
Theorem X8_the_identity_of_a_task_is_fixed :
  forall (cfg : Config) (evs : list (Event * Env)) (w : World),
    started cfg evs w = false ->
    option_map identity (currentTask (state (run_events cfg evs w)))
    = option_map identity (currentTask (state w))
    \/ currentTask (state (run_events cfg evs w)) = None.
Proof. intros cfg evs w H. exact (run_events_identity cfg evs w H). Qed.

Lemma X8_witness :
  option_map identity (currentTask (state (run_events default_config two_continues
                                             running_world)))
  = option_map identity (currentTask (state running_world))
  \/ currentTask (state (run_events default_config two_continues running_world)) = None.
Proof.
  apply (X8_the_identity_of_a_task_is_fixed default_config two_continues running_world).
  vm_compute. reflexivity.
Defined.

(* ------------------------------------------------------------------------ *)
(** ** The output of the child *)

(** X9. One chunk of output, in closed form.  Its non-empty lines are
    appended to the buffer and to the log file of the task, one [AppendLog]
    each, in their order (lines of standard error with the prefix
    [[ERR] ]); without a task nothing is logged.  After a chunk of standard
    output a buffer of more than 1000 lines is cut to its last 500.  Nothing
    else in the world changes. *)
Theorem X9_output_lines_are_buffered_and_logged_in_order :
  forall (data : string) (w : World),
    let lines := chunk_lines data in
    let logged (f : string -> string) :=
      match currentTask (state w) with
      | Some t => (rev (map (fun l => AppendLog (logFilePath t) (f l)) lines) ++ trace w)%list
      | None => trace w
      end in
    let out := (outputBuffer w ++ lines)%list in
    on_stdout data w
    = set_trace (logged (fun l => l))
        (set_outputBuffer (if 1000 <? Z.of_nat (List.length out)
                           then JS.slice (-500) out else out) w) /\
    on_stderr data w
    = set_trace (logged (fun l => "[ERR] " ++ l))
        (set_outputBuffer
           (outputBuffer w ++ map (fun l => ("[ERR] " ++ l)%string) lines)%list w).
Proof.
  intros data w lines logged out. subst lines logged out.
  unfold on_stdout, on_stderr, chunk_lines. rewrite !fold_lines_spec. rewrite map_id.
  split; [|reflexivity].
  break_world w. simpl. destruct (1000 <? _); reflexivity.
Qed.

(* ------------------------------------------------------------------------ *)
(** ** Pauses *)





(* ------------------------------------------------------------------------ *)
(** ** Stop and cancel *)

Lemma stopCurrentTask_kill cfg now r1 r2 w t p :
  currentTask (state w) = Some t ->
  currentProcess w = Some p ->
  filter is_kill (trace (stopCurrentTask cfg now r1 r2 w))
  = Kill p SIGTERM :: filter is_kill (trace w) /\
  saved (stopCurrentTask cfg now r1 r2 w).
Proof.
  intros Ht Hp. break_world w. simpl in Ht, Hp. subst task proc. unfold saved.
  destruct hb, qt, r1, r2; crush; split; reflexivity.
Qed.

Lemma cmd_cancel_kill w t p :
  currentTask (state w) = Some t ->
  currentProcess w = Some p ->
  filter is_kill (trace (cmd_cancel w)) = Kill p SIGKILL :: filter is_kill (trace w) /\
  saved (cmd_cancel w).
Proof.
  intros Ht Hp. break_world w. simpl in Ht, Hp. subst task proc. unfold saved, cmd_cancel.
  destruct hb, qt; crush; split; reflexivity.
Qed.

(** X12. [/stop] and [/cancel] leave the supervisor in the same state: no
    task, no child handle, no timer handle, and a state file without a
    task, so that a restart has nothing to resume.  They differ in the
    signal the child gets, [SIGTERM] or [SIGKILL], and in the messages. *)
Theorem X12_stop_and_cancel_differ_in_the_signal :
  forall (cfg : Config) (env : Env) (w : World),
    machine (cmd_stop cfg env w) = machine (cmd_cancel w) /\
    (forall t, currentTask (state w) = Some t ->
       currentProcess (cmd_stop cfg env w) = None /\
       heartbeatInterval (cmd_stop cfg env w) = None /\
       quantumTimer (cmd_stop cfg env w) = None /\
       forall secret,
         currentTask (state (main (stateFile (cmd_stop cfg env w)) secret)) = None) /\
    (forall t p, currentTask (state w) = Some t -> currentProcess w = Some p ->
       filter is_kill (trace (cmd_stop cfg env w))
       = Kill p SIGTERM :: filter is_kill (trace w) /\
       filter is_kill (trace (cmd_cancel w))
       = Kill p SIGKILL :: filter is_kill (trace w)).
Proof.
  intros cfg env w. split; [|split].
  - unfold cmd_stop. destruct (currentTask (state w)) as [t|] eqn:Ht.
    + rewrite machine_emit. apply (stop_is_cancel cfg _ _ _ w t Ht).
    + unfold cmd_cancel. rewrite Ht. reflexivity.
  - intros t Ht. unfold cmd_stop. rewrite Ht.
    set (w' := stopCurrentTask cfg (clock env 0%nat) (tg1 env) (tg2 env) w).
    assert (Hn : currentTask (state w') = None)
      by (apply (stopCurrentTask_clears cfg _ _ _ w t Ht)).
    assert (Hs : saved w').
    { subst w'. clear Hn. break_world w. simpl in Ht. subst task. unfold saved.
      destruct hb, qt, proc, (tg1 env), (tg2 env); crush; reflexivity. }
    destruct (stopCurrentTask_bc cfg (clock env 0%nat) (tg1 env) (tg2 env) w w)
      as [Hs' _ _ _ _ _ _ _ | _ _ Hh Hq | _ _ _ _ _ Hr].
    + exfalso. unfold task_status in Hs'. fold w' in Hs'. rewrite Hn, Ht in Hs'.
      discriminate Hs'.
    + fold w' in Hh, Hq.
      split; [|split; [exact Hh | split; [exact Hq|]]].
      * subst w'. clear. break_world w.
        destruct task, hb, qt, proc, (tg1 env), (tg2 env); crush; reflexivity.
      * intro secret.
        change (stateFile (emit (Reply MTaskStopped NoKeyboard) w')) with (stateFile w').
        rewrite (saved_recoverable w' Hs secret). unfold interrupted. rewrite Hn. reflexivity.
    + exfalso. fold w' in Hr. unfold is_status in Hr. rewrite Hn in Hr. discriminate Hr.
  - intros t p Ht Hp. split.
    + unfold cmd_stop. rewrite Ht.
      apply (stopCurrentTask_kill cfg _ _ _ w t p Ht Hp).
    + apply (cmd_cancel_kill w t p Ht Hp).
Qed.

Lemma X12_witness :
  filter is_kill (trace (cmd_stop default_config (host 150000) running_world))
  = Kill 0%nat SIGTERM :: filter is_kill (trace running_world) /\
  filter is_kill (trace (cmd_cancel running_world))
  = Kill 0%nat SIGKILL :: filter is_kill (trace running_world).
Proof.
  exact (proj2 (proj2 (X12_stop_and_cancel_differ_in_the_signal default_config
                         (host 150000) running_world))
           sample_task 0%nat eq_refl eq_refl).
Defined.

(* ------------------------------------------------------------------------ *)
(** ** The buttons *)








(* ------------------------------------------------------------------------ *)
(** ** The status panel *)

(** X15. For a duration that is not negative [formatDuration] prints the
    whole seconds of it as minutes and seconds below 60.  The remaining
    time of the quantum on the panel is never negative, and never more than
    the quantum when the clock has not gone back since the quantum began. *)
Theorem X15_durations_are_minutes_and_seconds :
  forall (cfg : Config) (now ms : Z) (task : TaskState) (w : World),
    (0 <= ms ->
     0 <= fst (formatDuration ms) /\ 0 <= snd (formatDuration ms) < 60 /\
     fst (formatDuration ms) * 60 + snd (formatDuration ms) = ms / 1000) /\
    (let r := panel_remaining (buildStatusText cfg now task w) in
     0 <= fst r /\ 0 <= snd r < 60 /\
     (quantumStartedAt task <= now ->
      fst r * 60 + snd r <= Z.max 0 (QUANTUM_MIN cfg * 60))).
Proof.
  intros cfg now ms task w.
  assert (F : forall x, 0 <= x ->
              0 <= fst (formatDuration x) /\ 0 <= snd (formatDuration x) < 60 /\
              fst (formatDuration x) * 60 + snd (formatDuration x) = x / 1000).
  { intros x Hx. unfold formatDuration. cbn [fst snd].
    assert (0 <= x / 1000) by (apply Z.div_pos; lia).
    rewrite Z.rem_mod_nonneg by lia.
    pose proof (Z.mod_pos_bound (x / 1000) 60 ltac:(lia)).
    pose proof (Z.div_mod (x / 1000) 60 ltac:(lia)).
    assert (0 <= x / 1000 / 60) by (apply Z.div_pos; lia).
    lia. }
  split; [exact (F ms)|].
  cbn [buildStatusText panel_remaining].
  set (rem := Z.max 0 (QUANTUM_MIN cfg * 60 * 1000 - (now - quantumStartedAt task))).
  destruct (F rem ltac:(subst rem; lia)) as (F1 & F2 & F3).
  split; [exact F1|]. split; [exact F2|].
  intro Hq. rewrite F3.
  destruct (Z.max_spec 0 (QUANTUM_MIN cfg * 60)) as [[Hm ->] | [Hm ->]].
  - apply Z.div_le_upper_bound; [lia|]. subst rem. lia.
  - assert (rem = 0) by (subst rem; lia). rewrite H. reflexivity.
Qed.

Lemma X15_witness :
  0 <= fst (formatDuration 125000) /\ 0 <= snd (formatDuration 125000) < 60 /\
  fst (formatDuration 125000) * 60 + snd (formatDuration 125000) = 125000 / 1000.
Proof.
  apply (proj1 (X15_durations_are_minutes_and_seconds default_config 0 125000 sample_task
                  running_world)).
  lia.
Defined.


(* ------------------------------------------------------------------------ *)
(** ** The command line of the child *)

(** X17. The command line handed to [bash -c] is [claude -p], one word and
    the redirection, and the shell reads that word back as the prompt,
    whatever single quotes the prompt contains. *)
Theorem X17_the_prompt_survives_the_shell_quoting :
  forall (prompt : string),
    exists word,
      fullCommand prompt = "claude -p " ++ word ++ " 2>&1" /\
      Bash.dequote false word = Some prompt.
Proof.
  intro prompt. exists ("'" ++ JS.escape_quotes prompt ++ "'"). split.
  - unfold fullCommand. simpl. rewrite string_append_assoc. reflexivity.
  - change (Bash.dequote true (JS.escape_quotes prompt ++ "'") = Some prompt).
    apply dequote_escaped.
Qed.

(* ------------------------------------------------------------------------ *)
(** ** The uptime of the device *)

(** X18. For a whole, non-negative number of seconds the three numbers
    [getDeviceStatus] prints for the uptime are the days, the hours below
    24 and the minutes below 60 of it. *)
Theorem X18_uptime_is_days_hours_and_minutes :
  forall (uptimeSec : Z),
    0 <= uptimeSec ->
    let d := Device.uptimeDays uptimeSec in
    let h := Device.uptimeHours uptimeSec in
    let m := Device.uptimeMins uptimeSec in
    0 <= d /\ 0 <= h < 24 /\ 0 <= m < 60 /\
    d * 86400 + h * 3600 + m * 60 <= uptimeSec < d * 86400 + h * 3600 + m * 60 + 60.
Proof.
  intros s Hs d h m. subst d h m.
  unfold Device.uptimeDays, Device.uptimeHours, Device.uptimeMins.
  rewrite !Z.rem_mod_nonneg by lia.
  Z.div_mod_to_equations. lia.
Qed.

Lemma X18_witness :
  0 <= Device.uptimeDays 100000 /\ 0 <= Device.uptimeHours 100000 < 24 /\
  0 <= Device.uptimeMins 100000 < 60 /\
  Device.uptimeDays 100000 * 86400 + Device.uptimeHours 100000 * 3600
  + Device.uptimeMins 100000 * 60 <= 100000
  < Device.uptimeDays 100000 * 86400 + Device.uptimeHours 100000 * 3600
    + Device.uptimeMins 100000 * 60 + 60.
Proof. apply (X18_uptime_is_days_hours_and_minutes 100000). lia. Defined.

(* ------------------------------------------------------------------------ *)
(** ** The close of a child that is not the current one *)

Lemma on_close_effect cfg now r1 r2 code w t :
  currentTask (state w) = Some t ->
  status t = running ->
  let w' := on_close cfg now r1 r2 code w in
  task_status w' = Some (exit_status code) /\
  currentProcess w' = None /\
  children w' = children w /\
  filter is_kill (trace w') = filter is_kill (trace w).
Proof.
  intros Ht Hs w'. subst w'. break_world w. simpl in Ht. subst task.
  destruct hb, qt, proc, r1, r2; norm; rewrite Hs; cbn [TaskStatus_eqb]; norm;
    repeat (break_step; norm); repeat split.
Qed.

(** X19. The ['close'] handler does not look at which child closed.  When a
    child other than the one in [currentProcess] closes while a task is
    running (the child of the burst before, ended by a pause, whose close
    arrives after the continue), the task is marked [completed] or [error]
    by the exit code of that child and the handle of the current child is
    dropped, while the current child is still alive and has been sent no
    signal. *)
Theorem X19_close_of_an_earlier_child_ends_the_task :
  forall (cfg : Config) (env : Env) (w : World) (t : TaskState) (p p' : Pid)
         (code : option Z),
    currentTask (state w) = Some t ->
    status t = running ->
    currentProcess w = Some p ->
    alive p w = true ->
    p' <> p ->
    let w' := step cfg (Close p' code) env w in
    task_status w' = Some (exit_status code) /\
    currentProcess w' = None /\
    alive p w' = true /\
    filter is_kill (trace w') = filter is_kill (trace w).
Proof.
  intros cfg env w t p p' code Ht Hs Hp Ha Hne w'. subst w'. cbn [step].
  set (w0 := set_children (filter (fun c => negb (Nat.eqb c p')) (children w)) w).
  destruct (on_close_effect cfg (clock env 0%nat) (tg1 env) (tg2 env) code w0 t Ht Hs)
    as (E1 & E2 & E3 & E4).
  repeat split; try assumption.
  unfold alive in *. rewrite E3. apply existsb_exists. apply existsb_exists in Ha.
  destruct Ha as (c & Hin & Hc). apply Nat.eqb_eq in Hc. subst c.
  exists p. split; [|apply Nat.eqb_refl].
  subst w0. simpl. apply filter_In. split; [exact Hin|].
  apply negb_true_iff. apply Nat.eqb_neq. intro X. apply Hne. symmetry. exact X.
Qed.

Lemma X19_witness :
  task_status (step default_config (Close 0%nat None) (host 141000) resumed_world)
  = Some error /\
  currentProcess (step default_config (Close 0%nat None) (host 141000) resumed_world)
  = None /\
  alive 1%nat (step default_config (Close 0%nat None) (host 141000) resumed_world) = true.
Proof.
  assert (Ht : exists t, currentTask (state resumed_world) = Some t /\ status t = running).
  { eexists. split; [vm_compute; reflexivity | reflexivity]. }
  destruct Ht as (t & Ht & Hs).
  destruct (X19_close_of_an_earlier_child_ends_the_task default_config (host 141000)
              resumed_world t 1%nat 0%nat None Ht Hs eq_refl eq_refl
              ltac:(discriminate))
    as (A & B & C & _).
  repeat split; assumption.
Defined.

(* ------------------------------------------------------------------------ *)
(** ** The restart notice *)

(** X20. [main] sets the timer of the restart notice exactly when the task
    it loaded is paused (a task that was running counts), and no handler
    sets another: in every world of a run the only such timer is the first
    timer of the run, and once it has fired none is pending, so the notice
    is sent at most once. *)
Theorem X20_the_restart_notice_is_sent_at_most_once :
  forall (cfg : Config),
    (forall file secret,
        timers (main file secret)
        = if is_status paused (main file secret) then [(0%nat, Notify)] else []) /\
    (forall w t, Reachable cfg w -> pending t Notify w = true ->
        t = 0%nat /\
        forall env t', pending t' Notify (step cfg (RestartNotice t) env w) = false).
Proof.
  intro cfg. split; [apply main_timers|].
  intros w t HR Hp. apply pending_In in Hp.
  pose proof (Reachable_notify cfg w t HR Hp) as ->.
  split; [reflexivity|].
  intros env t'.
  destruct (pending t' Notify (step cfg (RestartNotice 0%nat) env w)) eqn:E; [|reflexivity].
  exfalso. apply pending_In in E.
  assert (HR' : Reachable cfg (step cfg (RestartNotice 0%nat) env w)).
  { apply reach_step; [exact HR|]. simpl. apply pending_In. exact Hp. }
  pose proof (Reachable_notify cfg _ t' HR' E) as ->.
  cbn [step] in E.
  eapply cc_notify in E; [|apply on_restart_notice_cc].
  simpl in E. apply filter_In in E. destruct E as [_ E]. discriminate E.
Qed.

Lemma X20_witness :
  pending 0%nat Notify
    (step default_config (RestartNotice 0%nat) (host 2000) (main (Json sample_file) None))
  = false.
Proof.
  exact (proj2 (proj2 (X20_the_restart_notice_is_sent_at_most_once default_config)
                  (main (Json sample_file) None) 0%nat
                  (reach_main default_config (Json sample_file) None) eq_refl)
           (host 2000) 0%nat).
Defined.

(* ------------------------------------------------------------------------ *)
(** ** The argument of a command *)



(* ------------------------------------------------------------------------ *)
(** ** What a handler does to the signals *)

Lemma sc_refl (w : World) : signals_change w w.
Proof. left. reflexivity. Qed.

Lemma sc_from (w w0 w' : World) :
  currentProcess w0 = currentProcess w ->
  filter is_kill (trace w0) = filter is_kill (trace w) ->
  signals_change w0 w' -> signals_change w w'.
Proof.
  intros Hp Ht [H | (p & sig & H1 & H2 & H3)].
  - left. congruence.
  - right. exists p, sig. repeat split; congruence.
Qed.

Lemma sc_then (w w1 w2 : World) :
  signals_change w w1 ->
  currentProcess w2 = currentProcess w1 ->
  filter is_kill (trace w2) = filter is_kill (trace w1) ->
  signals_change w w2.
Proof.
  intros [H | (p & sig & H1 & H2 & H3)] Hp Ht.
  - left. congruence.
  - right. exists p, sig. repeat split; congruence.
Qed.

Lemma logged_no_kill (path : string) (f : string -> string) (lines : list string)
    (tr : list Effect) :
  filter is_kill (rev (map (fun l => AppendLog path (f l)) lines) ++ tr)%list
  = filter is_kill tr.
Proof.
  rewrite filter_app.
  assert (E : filter is_kill (rev (map (fun l => AppendLog path (f l)) lines)) = []).
  { induction lines as [|l lines IH]; [reflexivity|].
    simpl. rewrite filter_app, IH. reflexivity. }
  rewrite E. reflexivity.
Qed.

Ltac solve_sc :=
  unfold signals_change; crush;
  first [ left; reflexivity
        | right; eexists; eexists; split; [reflexivity | split; reflexivity] ].

Ltac silent := left; reflexivity.

Section Signals.

Variable CONFIG : Config.

Lemma pauseForQuantumTimeout_sc now r1 r2 w :
  signals_change w (pauseForQuantumTimeout CONFIG now r1 r2 w).
Proof. cases w r1 r2; solve_sc. Qed.

Lemma pauseCurrentTask_sc now r1 r2 w :
  signals_change w (pauseCurrentTask CONFIG now r1 r2 w).
Proof. cases w r1 r2; solve_sc. Qed.

Lemma stopCurrentTask_sc now r1 r2 w :
  signals_change w (stopCurrentTask CONFIG now r1 r2 w).
Proof. cases w r1 r2; solve_sc. Qed.

Lemma on_close_sc now r1 r2 code w :
  signals_change w (on_close CONFIG now r1 r2 code w).
Proof. cases w r1 r2; solve_sc. Qed.

Lemma on_error_sc r1 r2 msg w : signals_change w (on_error r1 r2 msg w).
Proof. cases w r1 r2; solve_sc. Qed.

Lemma sendOrEditStatusMessage_sc r1 r2 m kb w :
  signals_change w (sendOrEditStatusMessage r1 r2 m kb w).
Proof. cases w r1 r2; solve_sc. Qed.

Lemma startExecution_sc now_q now_s r1 r2 text isResume w :
  signals_change w (startExecution CONFIG now_q now_s r1 r2 text isResume w).
Proof. cases w r1 r2; solve_sc. Qed.

Lemma cmd_cancel_sc w : signals_change w (cmd_cancel w).
Proof. unfold cmd_cancel. break_world w. destruct task, hb, qt, proc; solve_sc. Qed.

Lemma resume_sc env announce t w :
  is_kill announce = false ->
  signals_change w (resume CONFIG env announce t w).
Proof.
  intro Ha. unfold resume.
  eapply sc_from; [| |apply startExecution_sc]; [reflexivity|].
  simpl. rewrite Ha. reflexivity.
Qed.

Lemma cmd_run_sc env chat text w : signals_change w (cmd_run CONFIG env chat text w).
Proof.
  unfold cmd_run, rateLimitCheck.
  destruct (isUnlocked (clock env 0%nat) w); simpl; [|silent].
  destruct (clock env 1%nat - lastRequestTime w <? RATE_LIMIT_MS); simpl; [silent|].
  change (active_status (set_lastRequestTime (clock env 1%nat) w)) with (active_status w).
  destruct (active_status w); simpl; [silent|].
  destruct (JS.truthy (command_args text)); simpl; [|silent].
  eapply sc_from; [| |apply startExecution_sc]; reflexivity.
Qed.

Lemma cmd_continue_sc env w : signals_change w (cmd_continue CONFIG env w).
Proof.
  unfold cmd_continue.
  destruct (isUnlocked (clock env 0%nat) w); simpl; [|silent].
  destruct (currentTask (state w)) as [t|]; [|silent].
  destruct (TaskStatus_eqb (status t) paused); simpl; [|silent].
  apply resume_sc. reflexivity.
Qed.

Lemma cmd_unlock_sc env text w : signals_change w (cmd_unlock CONFIG env text w).
Proof.
  unfold cmd_unlock.
  destruct (JS.truthy (command_args text)); simpl; [|silent].
  destruct (getStoredPassword w) as [pw|]; [|silent].
  destruct (JS.truthy pw); simpl; [|silent].
  destruct (String.eqb _ _); silent.
Qed.

Lemma cmd_stop_sc env w : signals_change w (cmd_stop CONFIG env w).
Proof.
  unfold cmd_stop. destruct (currentTask (state w)); [|silent].
  eapply sc_then; [apply stopCurrentTask_sc | reflexivity | reflexivity].
Qed.

Lemma cmd_pause_sc env w : signals_change w (cmd_pause CONFIG env w).
Proof.
  unfold cmd_pause. destruct (is_status running w); simpl; [|silent].
  apply pauseCurrentTask_sc.
Qed.

Lemma on_callback_query_sc env from data w :
  signals_change w (on_callback_query CONFIG env from data w).
Proof.
  unfold on_callback_query.
  destruct data as [data|]; [|apply sc_refl].
  destruct (from =? ALLOWED_USER_ID CONFIG); simpl; [|apply sc_refl].
  destruct (String.eqb data "STATUS").
  { destruct (currentTask (state w)); [|silent].
    eapply sc_from; [| |apply sendOrEditStatusMessage_sc]; reflexivity. }
  destruct (String.eqb data "LOCK"); [silent|].
  destruct (String.eqb data "STOP_PANEL").
  { destruct (currentTask (state w)); [|silent].
    eapply sc_from; [| |apply stopCurrentTask_sc]; reflexivity. }
  destruct (String.eqb data "PAUSE").
  { destruct (is_status running w); simpl; [|silent].
    eapply sc_from; [| |apply pauseCurrentTask_sc]; reflexivity. }
  destruct (String.prefix "CONTINUE:" data).
  { destruct (isUnlocked (clock env 0%nat) w); simpl; [|silent].
    destruct (currentTask (state w)) as [t|]; [|silent].
    destruct (negb (String.eqb (id t) _) || negb (TaskStatus_eqb (status t) paused));
      [silent | apply resume_sc; reflexivity]. }
  destruct (String.prefix "STOP:" data).
  { destruct (currentTask (state w)) as [t|]; [|silent].
    destruct (negb (String.eqb (id t) _)); [silent|].
    eapply sc_from; [| |apply stopCurrentTask_sc]; reflexivity. }
  silent.
Qed.

Lemma handle_sc env from chat u w : signals_change w (handle CONFIG env from chat u w).
Proof.
  destruct u; simpl.
  - silent.
  - apply cmd_unlock_sc.
  - silent.
  - apply cmd_run_sc.
  - unfold cmd_status. destruct (currentTask (state w)); silent.
  - apply cmd_continue_sc.
  - apply cmd_stop_sc.
  - apply cmd_cancel_sc.
  - apply cmd_pause_sc.
  - apply on_callback_query_sc.
Qed.

Lemma step_sc ev env w : signals_change w (step CONFIG ev env w).
Proof.
  destruct ev as [from priv chat u | p data | p data | p msg | p code | t | t | t]; simpl.
  - destruct from as [user|]; [|apply sc_refl].
    destruct (isAllowedUser _ _ _); [|apply sc_refl].
    apply handle_sc.
  - unfold on_stdout. rewrite fold_lines_spec.
    left. break_world w. destruct task; simpl; destruct (1000 <? _); simpl;
      rewrite ?logged_no_kill; reflexivity.
  - unfold on_stderr. rewrite fold_lines_spec.
    left. break_world w. destruct task; simpl;
      rewrite ?logged_no_kill; reflexivity.
  - apply on_error_sc.
  - eapply sc_from; [| |apply on_close_sc]; reflexivity.
  - unfold on_heartbeat. destruct (currentTask (state w)) as [tk|]; [|apply sc_refl].
    destruct (TaskStatus_eqb (status tk) running); [|apply sc_refl].
    apply sendOrEditStatusMessage_sc.
  - eapply sc_from; [| |apply pauseForQuantumTimeout_sc]; reflexivity.
  - unfold on_restart_notice.
    destruct (currentTask (state (clearTimer t Notify w))) as [tk|]; [|silent].
    destruct (tg1 env); silent.
Qed.

End Signals.

(** X22. In one turn of the event loop the supervisor sends at most one
    signal, and only to the child it holds in [currentProcess], whose handle
    it then drops: it never signals a process it does not hold. *)
Theorem X22_only_the_held_child_is_signalled :
  forall (cfg : Config) (ev : Event) (env : Env) (w : World),
    let w' := step cfg ev env w in
    filter is_kill (trace w') = filter is_kill (trace w)
    \/ exists p sig,
         currentProcess w = Some p /\ currentProcess w' = None /\
         filter is_kill (trace w') = Kill p sig :: filter is_kill (trace w).
Proof. intros cfg ev env w. exact (step_sc cfg ev env w). Qed.

(* ------------------------------------------------------------------------ *)
(** ** The password of a new installation *)

Lemma loadState_secretFile (w : World) : secretFile (loadState w) = secretFile w.
Proof.
  unfold loadState. destruct (stateFile w) as [| |loaded]; try reflexivity.
  set (w1 := set_state (spread (state w) loaded) w).
  destruct (currentTask (state w1)) as [t|]; [|reflexivity].
  destruct (TaskStatus_eqb (status t) running); reflexivity.
Qed.

Lemma main_secretFile (file : FileContent) (secret : option string) :
  secretFile (main file secret)
  = Some (match secret with Some s => s | None => "changeme" end).
Proof.
  pose proof (loadState_secretFile (initial file secret)) as L. simpl in L.
  unfold main. set (w := loadState (initial file secret)) in *.
  rewrite L. destruct secret; destruct (is_status paused _); simpl; try rewrite L; reflexivity.
Qed.

(** X23. On a host without a secret file [main] creates one with the
    password [changeme], and the first [/unlock changeme] of the allowed
    user opens the gate; a secret file that exists is left as it is. *)
Theorem X23_a_new_installation_has_the_default_password :
  forall (cfg : Config) (file : FileContent) (env : Env) (chat : Z) (text : string),
    command_args text = "changeme" ->
    let w := main file None in
    let w' := step cfg (Telegram (Some (ALLOWED_USER_ID cfg)) true chat (Unlock text)) env w in
    secretFile w = Some "changeme" /\
    (forall s, secretFile (main file (Some s)) = Some s) /\
    unlockedUntil (state w') = clock env 0%nat + UNLOCK_TTL_MIN cfg * 60 * 1000.
Proof.
  intros cfg file env chat text Ha w w'. subst w w'.
  split; [apply main_secretFile|]. split; [intro s; apply main_secretFile|].
  cbn [step handle]. unfold isAllowedUser. rewrite Z.eqb_refl. cbn [andb].
  destruct (cmd_unlock_gate cfg env text (main file None))
    as [(_ & _ & U & _) | (_ & [N | N])].
  - exact U.
  - exfalso. apply N. unfold getStoredPassword. rewrite main_secretFile, Ha. reflexivity.
  - rewrite Ha in N. discriminate N.
Qed.

Lemma X23_witness :
  unlockedUntil
    (state (step default_config
              (Telegram (Some (ALLOWED_USER_ID default_config)) true 55
                 (Unlock "/unlock changeme"))
              (host 100000) (main NoFile None)))
  = 100000 + 10 * 60 * 1000.
Proof.
  exact (proj2 (proj2 (X23_a_new_installation_has_the_default_password default_config
                         NoFile (host 100000) 55 "/unlock changeme" eq_refl))).
Defined.
